(** * PresenceCompiler: a shallow embedding of [src/tools/classes/PresenceCompiler.ts]

    The class drives an external bundler (webpack) and an external installer
    (npm) over a set of presence directories.  The embedding keeps the
    control flow of [compilePresence] and [installPresenceDependencies] as
    it is written and threads three things explicitly:

    - the filesystem, a finite map from the paths that exist to their text;
    - the caller's [options] object, which the method mutates;
    - a trace of the effects the method performs, in program order.

    Everything the class merely consumes (node's [path] functions,
    [getFolderLetter], [execSync], [webpack]) is a field of an environment
    record [Env]. *)

From Stdlib Require Import Ascii String.
From stdpp Require Import gmap strings list fin_maps.

Open Scope string_scope.
Open Scope list_scope.

Module PresenceCompiler.

(** ** Data *)

(** A thrown JavaScript [Error], identified by its message. *)
Definition JsError := string.

(** [webpack.WebpackError]: the fields the compiler and its callers read. *)
Record WebpackError := {
  name : string;
  message : string;
  file : string;
  line : nat;
  column : nat
}.

(** [webpack.Stats], reduced to [stats.compilation.errors]. *)
Record Compilation := { errors : list WebpackError }.
Record Stats := { compilation : Compilation }.

(** The pair the completion callback of [webpack.webpack] delivers. *)
Record Job := { error : option JsError; stats : option Stats }.

(** The [options] parameter of [compilePresence]; [None] is [undefined]. *)
Record Options := {
  output : option string;
  transpileOnly : option bool;
  emit : option bool
}.

(** [webpack.Configuration], the keys [compilePresence] sets. *)
Record Output := { iife : bool; path : option string; filename : string }.

Record RuleSetRule := {
  test : string;              (* source of the RegExp *)
  loader : string;
  exclude : string;           (* source of the RegExp *)
  loader_transpileOnly : bool (* options.transpileOnly of the loader *)
}.

Record Configuration := {
  cfg_mode : option string;
  cfg_devtool : option string;
  cfg_resolve : option (list string);      (* resolve.extensions *)
  cfg_output : option Output;
  cfg_module : option (list RuleSetRule);  (* module.rules *)
  cfg_context : option string;
  cfg_entry : option (list (string * string))
}.

(** [this.options?.webpack]: for every key, [None] when the object does not
    carry the key and [Some v] when it does (with [v = None] for a key that
    is present and [undefined]).  Keys [context] and [entry] of an override
    are replaced in both branches of [compilePresence] and are left out. *)
Record Overrides := {
  ov_mode : option (option string);
  ov_devtool : option (option string);
  ov_resolve : option (option (list string));
  ov_output : option (option Output);
  ov_module : option (option (list RuleSetRule))
}.

Definition no_overrides : Overrides :=
  {| ov_mode := None; ov_devtool := None; ov_resolve := None;
     ov_output := None; ov_module := None |}.

(** The first argument of [compilePresence]: [string | string[]]. *)
Inductive Target :=
  | Single (presence : string)
  | Batch (presence : list string).

(** The filesystem: the paths that exist, each with its text.  A directory
    is a path like any other (its text is empty and never read): the class
    asks of a path whether it exists, and writes a file only into a
    directory that exists. *)
Abbreviation FS := (gmap string string).

(** The texts handed to [actions.info]; the colour applied by [chalk] is
    noted beside each template. *)
Inductive Message :=
  | CompilingMany (n : nat)            (* yellow `Compiling ${n} Presence(s)` *)
  | CompilingOne (presence : string)   (* yellow `Compiling ${presence}...` *)
  | Installing (folder : string)       (* blue `Installing dependencies for ${folder}` *)
  | CompiledMany (n : nat)             (* green `Successfully compiled ${n} Presence(s)` *)
  | TranspiledMany (n : nat)           (* green `Successfully transpiled ${n} Presence(s)` *)
  | CompiledOne (presence : string)    (* green `Successfully compiled ${presence}` *)
  | TranspiledOne (presence : string). (* green `Successfully transpiled ${presence}` *)

Definition is_success (m : Message) : bool :=
  match m with
  | CompiledMany _ | TranspiledMany _ | CompiledOne _ | TranspiledOne _ => true
  | _ => false
  end.

(** The effects of the class, as they appear in a trace.  A bundler event
    records the call: the configuration and the filesystem it was started
    on, and the job it called back with. *)
Inductive Event :=
  | EvInfo (m : Message)
  | EvWrite (path data : string)
  | EvRm (path : string)
  | EvExec (command cwd : string)
  | EvWebpack (cfg : Configuration) (seen : FS) (job : Job).

(** ** The environment *)

Record Env := {
  cwd : string;                                   (* this.cwd *)
  ctor_webpack : Overrides;                       (* this.options?.webpack *)
  resolve : list string -> string;                (* node:path resolve *)
  basename : string -> string;                    (* node:path basename *)
  getFolderLetter : string -> string;             (* ../util/getFolderLetter.js *)
  execSync : string -> string -> FS -> option JsError * FS;
  webpack : Configuration -> FS -> Job * FS
}.

(** ** A state, trace and exception monad *)

Inductive Result (A : Type) :=
  | Ok (a : A)
  | Throw (e : JsError).
Arguments Ok {A} a.
Arguments Throw {A} e.

Record Outcome (A : Type) := {
  res : Result A;
  fs_out : FS;
  trace : list Event
}.
Arguments res {A} _.
Arguments fs_out {A} _.
Arguments trace {A} _.

Definition M (A : Type) : Type := FS -> Outcome A.

Definition ret {A} (a : A) : M A :=
  fun fs => {| res := Ok a; fs_out := fs; trace := [] |}.

Definition throw {A} (e : JsError) : M A :=
  fun fs => {| res := Throw e; fs_out := fs; trace := [] |}.

Definition bind {A B} (m : M A) (k : A -> M B) : M B :=
  fun fs =>
    let o := m fs in
    match res o with
    | Ok a =>
        let o' := k a (fs_out o) in
        {| res := res o'; fs_out := fs_out o'; trace := trace o ++ trace o' |}
    | Throw e => {| res := Throw e; fs_out := fs_out o; trace := trace o |}
    end.

#[global] Instance M_ret : MRet M := @ret.
#[global] Instance M_bind : MBind M := fun A B k m => bind m k.

(** ** Primitive effects *)

Definition file_exists (fs : FS) (p : string) : bool :=
  bool_decide (is_Some (fs !! p)).

Definition existsSync (p : string) : M bool :=
  fun fs => {| res := Ok (file_exists fs p); fs_out := fs; trace := [] |}.

(** The directory a path lies in: the text before its last slash. *)
Fixpoint parent_from (s seen : string) (best : option string) : option string :=
  match s with
  | EmptyString => best
  | String c s' =>
      if Ascii.eqb c "/"%char
      then parent_from s' (seen +:+ "/") (Some seen)
      else parent_from s' (seen +:+ String c "") best
  end.

Definition parent (p : string) : string :=
  match parent_from p "" None with
  | None => "."
  | Some EmptyString => "/"
  | Some d => d
  end.

(** [writeFileSync] raises when the directory of the path does not exist. *)
Definition writeFileSync (p data : string) : M unit :=
  fun fs =>
    if file_exists fs (parent p)
    then {| res := Ok tt; fs_out := <[p := data]> fs; trace := [EvWrite p data] |}
    else {| res := Throw "ENOENT"; fs_out := fs; trace := [] |}.

(** [rmSync] without [force] raises on a path that does not exist. *)
Definition rmSync (p : string) : M unit :=
  fun fs =>
    if file_exists fs p
    then {| res := Ok tt; fs_out := delete p fs; trace := [EvRm p] |}
    else {| res := Throw "ENOENT"; fs_out := fs; trace := [] |}.

Definition info (m : Message) : M unit :=
  fun fs => {| res := Ok tt; fs_out := fs; trace := [EvInfo m] |}.

Section Compiler.

Variable E : Env.

(** [execSync] raises when the child process exits with a non-zero code. *)
Definition exec (command dir : string) : M unit :=
  fun fs =>
    let r := execSync E command dir fs in
    {| res := match r.1 with Some e => Throw e | None => Ok tt end;
       fs_out := r.2;
       trace := [EvExec command dir] |}.

(** [new Promise(r => webpack.webpack(cfg, (error, stats) => r({error, stats})))]:
    the bundler calls back once; the promise never rejects. *)
Definition bundle (cfg : Configuration) : M Job :=
  fun fs =>
    let r := webpack E cfg fs in
    {| res := Ok r.1; fs_out := r.2; trace := [EvWebpack cfg fs r.1] |}.

(** ** The class *)

Definition tsconfig : string :=
  let q := String (Ascii.ascii_of_nat 34) EmptyString in
  "{" +:+ q +:+ "extends" +:+ q +:+ ":" +:+ q +:+ "../../../tsconfig.json" +:+ q +:+ "}".

Definition getPresenceFolder (presence : string) : string :=
  resolve E [cwd E; "websites"; getFolderLetter E presence; presence].

Definition installPresenceDependencies (presence : string) : M unit :=
  let folder := getPresenceFolder presence in
  b ← existsSync (resolve E [folder; "package.json"]);
  if negb b then ret tt
  else
    info (Installing (basename E folder));;
    exec "npm install --quiet --loglevel=error" folder.

(** [{ ...base, ...ov }] on the keys of the literal. *)
Definition spread (base : Configuration) (ov : Overrides) : Configuration :=
  {| cfg_mode := default (cfg_mode base) (ov_mode ov);
     cfg_devtool := default (cfg_devtool base) (ov_devtool ov);
     cfg_resolve := default (cfg_resolve base) (ov_resolve ov);
     cfg_output := default (cfg_output base) (ov_output ov);
     cfg_module := default (cfg_module base) (ov_module ov);
     cfg_context := cfg_context base;
     cfg_entry := cfg_entry base |}.

(** [options.emit ??= true; options.transpileOnly ??= false]. *)
Definition set_defaults (options : Options) : Options :=
  {| output := output options;
     transpileOnly := Some (default false (transpileOnly options));
     emit := Some (default true (emit options)) |}.

(** Truthiness of an optional boolean and of an optional string. *)
Definition truthy (b : option bool) : bool := default false b.

Definition truthy_string (s : option string) : bool :=
  match s with
  | Some s => negb (String.eqb s "")
  | None => false
  end.

(** The [webpackConfig] constant, built from the options as they are when
    the object literal is evaluated.  The [errorFormatter] closure of the
    loader runs inside the bundler and is part of [webpack E]. *)
Definition webpackConfig (options : Options) : Configuration :=
  spread
    {| cfg_mode := Some "production";
       cfg_devtool := Some "inline-source-map";
       cfg_resolve := Some [".ts"];
       cfg_output :=
         if truthy (emit options)
         then Some {| iife := false; path := output options; filename := "[name].js" |}
         else None;
       cfg_module :=
         Some [ {| test := "\.ts$"; loader := "ts-loader"; exclude := "node_modules";
                   loader_transpileOnly := truthy (transpileOnly options) |} ];
       cfg_context := None;
       cfg_entry := None |}
    (ctor_webpack E).

Definition entries (iframe : bool) : list (string * string) :=
  ("presence", "./presence.ts") :: (if iframe then [("iframe", "./iframe.ts")] else []).

(** The configuration of one bundler run in the array branch:
    [{ ...webpackConfig, context, output, entry }]. *)
Definition batchConfig (base : Configuration) (options : Options)
    (presencePath : string) (iframe : bool) : Configuration :=
  {| cfg_mode := cfg_mode base;
     cfg_devtool := cfg_devtool base;
     cfg_resolve := cfg_resolve base;
     cfg_output :=
       if truthy (emit options)
       then Some {| iife := false; path := Some presencePath; filename := "[name].js" |}
       else None;
     cfg_module := cfg_module base;
     cfg_context := Some presencePath;
     cfg_entry := Some (entries iframe) |}.

(** The configuration of the bundler run in the single branch:
    [{ ...webpackConfig, context, entry }]. *)
Definition singleConfig (base : Configuration) (presencePath : string) (iframe : bool)
  : Configuration :=
  {| cfg_mode := cfg_mode base;
     cfg_devtool := cfg_devtool base;
     cfg_resolve := cfg_resolve base;
     cfg_output := cfg_output base;
     cfg_module := cfg_module base;
     cfg_context := Some presencePath;
     cfg_entry := Some (entries iframe) |}.

(** [job.stats?.compilation?.errors || []]. *)
Definition job_errors (job : Job) : list WebpackError :=
  match stats job with
  | Some s => errors (compilation s)
  | None => []
  end.

Definition not_ModuleBuildError (e : WebpackError) : bool :=
  negb (String.eqb (name e) "ModuleBuildError").

(** The body of [for (const p of presence)] in the array branch, with the
    [errors] array as an accumulator. *)
Fixpoint compile_each (base : Configuration) (options : Options)
    (presence : list string) (errs : list WebpackError) : M (list WebpackError) :=
  match presence with
  | [] => ret errs
  | p :: rest =>
      let presencePath := getPresenceFolder p in
      writeFileSync (resolve E [presencePath; "tsconfig.json"]) tsconfig;;
      installPresenceDependencies p;;
      iframe ← existsSync (resolve E [presencePath; "iframe.ts"]);
      job ← bundle (batchConfig base options presencePath iframe);
      match error job with
      | Some e => throw e
      | None => compile_each base options rest (errs ++ job_errors job)
      end
  end.

(** The second loop of the array branch. *)
Fixpoint remove_each (presence : list string) : M unit :=
  match presence with
  | [] => ret tt
  | p :: rest =>
      let f := resolve E [getPresenceFolder p; "tsconfig.json"] in
      b ← existsSync f;
      (if (b : bool) then rmSync f else ret tt);;
      remove_each rest
  end.

Definition compileBatch (base : Configuration) (options : Options)
    (presence : list string) : M (list WebpackError) :=
  info (CompilingMany (length presence));;
  errs ← compile_each base options presence [];
  remove_each presence;;
  let errs := filter (fun e => not_ModuleBuildError e = true) errs in
  (if Nat.eqb (length errs) 0
   then
     if negb (truthy (transpileOnly options))
     then info (CompiledMany (length presence))
     else info (TranspiledMany (length presence))
   else ret tt);;
  ret errs.

(** The rest of the method, for a single presence.  The success decision
    reads [job.stats?.compilation.errors.length]; the filter runs after it. *)
Definition compileSingle (base : Configuration) (options : Options)
    (presence : string) : M (list WebpackError) :=
  let presencePath := getPresenceFolder presence in
  writeFileSync (resolve E [presencePath; "tsconfig.json"]) tsconfig;;
  installPresenceDependencies presence;;
  info (CompilingOne presence);;
  iframe ← existsSync (resolve E [presencePath; "iframe.ts"]);
  job ← bundle (singleConfig base presencePath iframe);
  b ← existsSync (resolve E [presencePath; "tsconfig.json"]);
  (if (b : bool) then rmSync (resolve E [presencePath; "tsconfig.json"]) else ret tt);;
  match error job with
  | Some e => throw e
  | None =>
      (if Nat.eqb (length (job_errors job)) 0
       then
         if negb (truthy (transpileOnly options))
         then info (CompiledOne presence)
         else info (TranspiledOne presence)
       else ret tt);;
      ret (filter (fun e => not_ModuleBuildError e = true) (job_errors job))
  end.

(** [if (!options.output) options.output = presencePath]. *)
Definition set_output (options : Options) (presencePath : string) : Options :=
  if negb (truthy_string (output options))
  then {| output := Some presencePath;
          transpileOnly := transpileOnly options;
          emit := emit options |}
  else options.

(** What a call leaves behind: the caller's options object as the method
    mutated it, and the outcome of the returned promise. *)
Record Call := {
  options_after : Options;
  outcome : Outcome (list WebpackError)
}.

Definition compilePresence (presence : Target) (options : Options) (fs : FS) : Call :=
  let options := set_defaults options in
  let base := webpackConfig options in
  match presence with
  | Batch ps =>
      {| options_after := options;
         outcome := compileBatch base options ps fs |}
  | Single p =>
      let options := set_output options (getPresenceFolder p) in
      {| options_after := options;
         outcome := compileSingle base options p fs |}
  end.

End Compiler.

(** ** Reading traces *)

Definition bundler_runs (t : list Event) : list (Configuration * FS * Job) :=
  omap (fun ev => match ev with EvWebpack c f j => Some (c, f, j) | _ => None end) t.

Definition writes (t : list Event) : list string :=
  omap (fun ev => match ev with EvWrite p _ => Some p | _ => None end) t.

Definition installs (t : list Event) : list string :=
  omap (fun ev => match ev with EvExec _ d => Some d | _ => None end) t.

Definition successes (t : list Event) : list Message :=
  omap (fun ev => match ev with
                  | EvInfo m => if is_success m then Some m else None
                  | _ => None
                  end) t.

(** ** Concrete environments for the examples *)

Module Demo.

(** Path segments joined with a slash. *)
Fixpoint join (parts : list string) : string :=
  match parts with
  | [] => ""
  | [p] => p
  | p :: rest => p +:+ "/" +:+ join rest
  end.

(** The text after the last slash. *)
Fixpoint last_segment (s acc : string) : string :=
  match s with
  | EmptyString => acc
  | String c s' =>
      if Ascii.eqb c "/"%char then last_segment s' "" else last_segment s' (acc +:+ String c "")
  end.

(** A stand-in for [getFolderLetter]: the first character, upper-cased. *)
Definition letter (presence : string) : string :=
  match presence with
  | EmptyString => "#"
  | String c _ =>
      let n := Ascii.nat_of_ascii c in
      if (97 <=? n)%nat && (n <=? 122)%nat
      then String (Ascii.ascii_of_nat (n - 32)) ""
      else String c ""
  end.

Definition env (ov : Overrides)
    (npm : string -> string -> FS -> option JsError * FS)
    (wp : Configuration -> FS -> Job * FS) : Env :=
  {| cwd := "/repo"; ctor_webpack := ov; resolve := join;
     basename := fun s => last_segment s ""; getFolderLetter := letter;
     execSync := npm; webpack := wp |}.

Definition npm_ok : string -> string -> FS -> option JsError * FS :=
  fun _ _ fs => (None, fs).

Definition npm_fails : string -> string -> FS -> option JsError * FS :=
  fun _ _ fs => (Some "npm exited with code 1", fs).

Definition clean : Job :=
  {| error := None; stats := Some {| compilation := {| errors := [] |} |} |}.

Definition diagnostics (l : list WebpackError) : Job :=
  {| error := None; stats := Some {| compilation := {| errors := l |} |} |}.

Definition fatal (e : JsError) : Job := {| error := Some e; stats := None |}.

(** A bundler that answers by the [context] of the configuration and leaves
    the filesystem alone; contexts that are not listed build clean. *)
Definition bundler (table : list (string * Job)) : Configuration -> FS -> Job * FS :=
  fun cfg fs =>
    (default clean
       (c ← cfg_context cfg;
        snd <$> find (fun e => String.eqb (fst e) c) table),
     fs).

Definition wrapper : WebpackError :=
  {| name := "ModuleBuildError"; message := "Module build failed";
     file := "presence.ts"; line := 3; column := 7 |}.

Definition ts2322 : WebpackError :=
  {| name := "Error"; message := "TS2322: Type 'string' is not assignable to type 'number'.";
     file := "presence.ts"; line := 3; column := 7 |}.

Definition no_options : Options :=
  {| output := None; transpileOnly := None; emit := None |}.

Definition to_out : Options :=
  {| output := Some "/out"; transpileOnly := None; emit := None |}.

(** Everything builds clean. *)
Definition quiet : Env := env no_overrides npm_ok (bundler []).

(** The installer exits with a non-zero code. *)
Definition failing_install : Env := env no_overrides npm_fails (bundler []).

(** The bundler cannot run on presence [a], or on presence [b]. *)
Definition crash_a : Env :=
  env no_overrides npm_ok (bundler [("/repo/websites/A/a", fatal "bundler crashed")]).

Definition crash_b : Env :=
  env no_overrides npm_ok (bundler [("/repo/websites/B/b", fatal "bundler crashed")]).

(** Presence [a] yields a wrapper and nothing else. *)
Definition wrapper_only_a : Env :=
  env no_overrides npm_ok (bundler [("/repo/websites/A/a", diagnostics [wrapper])]).

(** Presence [a], or [b], yields a type error and its wrapper. *)
Definition typed_a : Env :=
  env no_overrides npm_ok (bundler [("/repo/websites/A/a", diagnostics [ts2322; wrapper])]).

Definition typed_b : Env :=
  env no_overrides npm_ok (bundler [("/repo/websites/B/b", diagnostics [ts2322; wrapper])]).

(** A working tree with the directories of the presences [a], [b] and [c]. *)
Definition repo : FS :=
  {[ "/repo/websites/A/a" := ""; "/repo/websites/B/b" := "";
     "/repo/websites/C/c" := "" ]}.

Definition with_manifest : FS := <[ "/repo/websites/A/a/package.json" := "{}" ]> repo.

Definition with_tsconfig : FS := <[ "/repo/websites/A/a/tsconfig.json" := "{}" ]> repo.






End Demo.

(** The claim that the bundler writes where the options say, in the words
    of the specification: [options.output] when the caller supplies it, the
    unit's own directory otherwise. *)
Definition specified_output_path (options : Options) (dir : string) : string :=
  default dir (output options).

Definition output_as_specified (options : Options)
    (r : Configuration * FS * Job) : Prop :=
  exists dir out,
    cfg_context r.1.1 = Some dir /\
    cfg_output r.1.1 = Some out /\
    path out = Some (specified_output_path options dir).

(** What the array branch configures: the unit's own directory. *)
Definition output_in_context (r : Configuration * FS * Job) : Prop :=
  exists dir,
    cfg_context r.1.1 = Some dir /\
    cfg_output r.1.1 =
      Some {| iife := false; path := Some dir; filename := "[name].js" |}.

(** What the single branch configures when the caller supplies [o]. *)
Definition output_in (o : string) (r : Configuration * FS * Job) : Prop :=
  cfg_output r.1.1 = Some {| iife := false; path := Some o; filename := "[name].js" |}.


Definition units (t : Target) : list string :=
  match t with
  | Single p => [p]
  | Batch ps => ps
  end.

(** The classifier in the words of the specification: a wrapper goes when an
    underlying diagnostic for the same fault is in the list. *)
Definition is_wrapper (e : WebpackError) : bool :=
  String.eqb (name e) "ModuleBuildError".

Definition has_underlying (same_fault : WebpackError -> WebpackError -> bool)
    (l : list WebpackError) (w : WebpackError) : bool :=
  existsb (fun u => negb (is_wrapper u) && same_fault w u) l.

Definition drop_wrapped (same_fault : WebpackError -> WebpackError -> bool)
    (l : list WebpackError) : list WebpackError :=
  filter (fun e => (negb (is_wrapper e && has_underlying same_fault l e)) = true) l.

(** ** Further readings of a trace, and the constructor *)

Definition removals (t : list Event) : list string :=
  omap (fun ev => match ev with EvRm p => Some p | _ => None end) t.

Definition execs (t : list Event) : list (string * string) :=
  omap (fun ev => match ev with EvExec c d => Some (c, d) | _ => None end) t.

(** The path [resolve(presencePath, "tsconfig.json")] of a unit. *)
Definition tsconfig_path (E : Env) (p : string) : string :=
  resolve E [getPresenceFolder E p; "tsconfig.json"].

(** An effect of the compiler itself that stays with the given units: a
    write of the fixed [tsconfig] text to the [tsconfig.json] of a unit, a
    removal of such a file, or the fixed installer command run in the
    directory of a unit.  Messages and bundler runs are not restricted. *)
Definition confined (E : Env) (us : list string) (ev : Event) : Prop :=
  match ev with
  | EvWrite f d => d = tsconfig /\ exists u, u ∈ us /\ f = tsconfig_path E u
  | EvRm f => exists u, u ∈ us /\ f = tsconfig_path E u
  | EvExec c d =>
      c = "npm install --quiet --loglevel=error" /\
      exists u, u ∈ us /\ d = getPresenceFolder E u
  | EvInfo _ | EvWebpack _ _ _ => True
  end.

(** The success message of either branch, by [options.transpileOnly]. *)
Definition success_one (options : Options) (p : string) : Message :=
  if default false (transpileOnly options) then TranspiledOne p else CompiledOne p.

Definition success_many (options : Options) (n : nat) : Message :=
  if default false (transpileOnly options) then TranspiledMany n else CompiledMany n.

(** The parameter of the constructor: [{ cwd?, webpack? }]. *)
Record ConstructorOptions := {
  opt_cwd : option string;
  opt_webpack : option Overrides
}.

(** What the module imports and does not define. *)
Record Host := {
  host_resolve : list string -> string;
  host_basename : string -> string;
  host_getFolderLetter : string -> string;
  host_execSync : string -> string -> FS -> option JsError * FS;
  host_webpack : Configuration -> FS -> Job * FS
}.

(** [new PresenceCompiler(options)]: [this.cwd = options?.cwd ?? rootPath],
    and [this.options] keeps the argument. *)
Definition new (H : Host) (rootPath : string) (options : option ConstructorOptions)
  : Env :=
  {| cwd := default rootPath (options ≫= opt_cwd);
     ctor_webpack := default no_overrides (options ≫= opt_webpack);
     resolve := host_resolve H;
     basename := host_basename H;
     getFolderLetter := host_getFolderLetter H;
     execSync := host_execSync H;
     webpack := host_webpack H |}.

Module DemoHost.

(** The imports of the module, for a compiler built by its constructor. *)
Definition host : Host :=
  {| host_resolve := Demo.join; host_basename := fun s => Demo.last_segment s "";
     host_getFolderLetter := Demo.letter; host_execSync := Demo.npm_ok;
     host_webpack := Demo.bundler [] |}.

(** A bundler override that sends the output to [/dist]. *)
Definition to_dist : Overrides :=
  {| ov_mode := None; ov_devtool := None; ov_resolve := None;
     ov_output := Some (Some {| iife := true; path := Some "/dist";
                                filename := "bundle.js" |});
     ov_module := None |}.

Definition elsewhere : option ConstructorOptions :=
  Some {| opt_cwd := Some "/elsewhere"; opt_webpack := Some to_dist |}.

(** A working tree under [/elsewhere] with the directory of presence [a]. *)
Definition elsewhere_repo : FS := {[ "/elsewhere/websites/A/a" := "" ]}.

End DemoHost.

(** [post m fs Q]: running [m] on [fs] ends in a result, a filesystem and
    a trace that satisfy [Q]. *)
Definition post {A} (m : M A) (fs : FS)
    (Q : Result A -> FS -> list Event -> Prop) : Prop :=
  Q (res (m fs)) (fs_out (m fs)) (trace (m fs)).

(** ** The monad, step by step *)

Lemma bind_Ok {A B} (m : M A) (k : A -> M B) fs a :
  res (m fs) = Ok a ->
  bind m k fs =
    {| res := res (k a (fs_out (m fs)));
       fs_out := fs_out (k a (fs_out (m fs)));
       trace := trace (m fs) ++ trace (k a (fs_out (m fs))) |}.
Proof. intros H. unfold bind. by rewrite H. Qed.

Lemma bind_Throw {A B} (m : M A) (k : A -> M B) fs e :
  res (m fs) = Throw e ->
  bind m k fs = {| res := Throw e; fs_out := fs_out (m fs); trace := trace (m fs) |}.
Proof. intros H. unfold bind. by rewrite H. Qed.

Lemma bundler_runs_app t1 t2 :
  bundler_runs (t1 ++ t2) = bundler_runs t1 ++ bundler_runs t2.
Proof. apply omap_app. Qed.

Lemma writes_app t1 t2 : writes (t1 ++ t2) = writes t1 ++ writes t2.
Proof. apply omap_app. Qed.

Lemma installs_app t1 t2 : installs (t1 ++ t2) = installs t1 ++ installs t2.
Proof. apply omap_app. Qed.

Lemma successes_app t1 t2 : successes (t1 ++ t2) = successes t1 ++ successes t2.
Proof. apply omap_app. Qed.

Lemma file_exists_false (fs : FS) p : file_exists fs p = false -> fs !! p = None.
Proof.
  unfold file_exists. intros H%bool_decide_eq_false.
  destruct (fs !! p) eqn:Hp; [| done]. destruct H. by eexists.
Qed.

Lemma post_bind {A B} (m : M A) (k : A -> M B) fs Q :
  post m fs (fun r fs' t =>
    match r with
    | Ok a => post (k a) fs' (fun r' fs'' t' => Q r' fs'' (t ++ t'))
    | Throw e => Q (Throw e) fs' t
    end) ->
  post (m ≫= k) fs Q.
Proof.
  unfold post, mbind, M_bind, bind. destruct (res (m fs)); simpl; auto.
Qed.

Lemma post_ret {A} (a : A) fs (Q : Result A -> FS -> list Event -> Prop) :
  Q (Ok a) fs [] -> post (ret a) fs Q.
Proof. done. Qed.

Lemma post_throw {A} e fs (Q : Result A -> FS -> list Event -> Prop) :
  Q (Throw e) fs [] -> post (throw e) fs Q.
Proof. done. Qed.

Lemma post_existsSync p fs Q :
  Q (Ok (file_exists fs p)) fs [] -> post (existsSync p) fs Q.
Proof. done. Qed.

Lemma post_writeFileSync p d fs Q :
  (file_exists fs (parent p) = true -> Q (Ok tt) (<[p := d]> fs) [EvWrite p d]) ->
  (file_exists fs (parent p) = false -> Q (Throw "ENOENT") fs []) ->
  post (writeFileSync p d) fs Q.
Proof.
  intros Hok Hno. unfold post, writeFileSync.
  destruct (file_exists fs (parent p)); simpl; auto.
Qed.

Lemma post_info m fs Q : Q (Ok tt) fs [EvInfo m] -> post (info m) fs Q.
Proof. done. Qed.

Lemma post_bundle E cfg fs Q :
  Q (Ok (webpack E cfg fs).1) (webpack E cfg fs).2
    [EvWebpack cfg fs (webpack E cfg fs).1] ->
  post (bundle E cfg) fs Q.
Proof. done. Qed.

(** The guarded removal [if (existsSync(f)) rmSync(f)] never raises and
    leaves [f] absent. *)
Lemma post_guarded_rm f fs (Q : Result unit -> FS -> list Event -> Prop) :
  (forall t, writes t = [] -> bundler_runs t = [] -> installs t = [] ->
     successes t = [] -> Q (Ok tt) (delete f fs) t) ->
  post (if file_exists fs f then rmSync f else ret tt) fs Q.
Proof.
  intros H. destruct (file_exists fs f) eqn:Hf; unfold post, rmSync, ret; simpl.
  - rewrite Hf. simpl. by apply H.
  - rewrite <- (delete_id fs f) at 1 by by apply file_exists_false. by apply H.
Qed.

Ltac wp lem := apply post_bind; apply lem; cbv beta iota.

(** ** installPresenceDependencies *)

Section Install.

Variable E : Env.

Lemma install_absent p fs :
  file_exists fs (resolve E [getPresenceFolder E p; "package.json"]) = false ->
  installPresenceDependencies E p fs = {| res := Ok tt; fs_out := fs; trace := [] |}.
Proof.
  intros H. unfold installPresenceDependencies, mbind, M_bind, bind, existsSync.
  simpl. by rewrite H.
Qed.

Lemma install_present p fs :
  file_exists fs (resolve E [getPresenceFolder E p; "package.json"]) = true ->
  trace (installPresenceDependencies E p fs) =
    [EvInfo (Installing (basename E (getPresenceFolder E p)));
     EvExec "npm install --quiet --loglevel=error" (getPresenceFolder E p)].
Proof.
  intros H. unfold installPresenceDependencies, mbind, M_bind, bind, existsSync.
  simpl. by rewrite H.
Qed.

Lemma install_no_runs p fs :
  bundler_runs (trace (installPresenceDependencies E p fs)) = [] /\
  writes (trace (installPresenceDependencies E p fs)) = [] /\
  successes (trace (installPresenceDependencies E p fs)) = [] /\
  sublist (installs (trace (installPresenceDependencies E p fs))) [getPresenceFolder E p].
Proof.
  destruct (file_exists fs (resolve E [getPresenceFolder E p; "package.json"])) eqn:H.
  - rewrite (install_present _ _ H). by repeat split.
  - rewrite (install_absent _ _ H). repeat split; simpl. apply sublist_nil_l.
Qed.

End Install.

(** C7. [installPresenceDependencies] runs the installer, in the unit's
    directory, exactly when [package.json] exists there; without the
    manifest it returns normally, leaves the filesystem as it was and
    performs no effect at all. *)
Theorem install_iff_manifest (E : Env) (p : string) (fs : FS) :
  let folder := getPresenceFolder E p in
  let manifest := file_exists fs (resolve E [folder; "package.json"]) in
  let o := installPresenceDependencies E p fs in
  (forall c d, In (EvExec c d) (trace o) <->
     manifest = true /\ c = "npm install --quiet --loglevel=error" /\ d = folder) /\
  (manifest = false -> o = {| res := Ok tt; fs_out := fs; trace := [] |}).
Proof.
  intros folder manifest o. split; [| apply install_absent].
  intros c d. subst o. destruct manifest eqn:H; subst manifest.
  - rewrite (install_present _ _ _ H). simpl. split.
    + intros [Hd | [Hd | []]]; [discriminate |]. by inversion Hd.
    + intros (_ & -> & ->). right. by left.
  - rewrite (install_absent _ _ _ H). simpl. split; [done | by intros [? _]].
Qed.

Lemma install_iff_manifest_witness :
  installPresenceDependencies Demo.failing_install "a" ∅ =
  {| res := Ok tt; fs_out := ∅; trace := [] |}.
Proof.
  apply (proj2 (install_iff_manifest Demo.failing_install "a" ∅)).
  reflexivity.
Defined.

Lemma post_install (E : Env) p fs (Q : Result unit -> FS -> list Event -> Prop) :
  (forall r fs' t,
     bundler_runs t = [] -> writes t = [] -> successes t = [] ->
     sublist (installs t) [getPresenceFolder E p] ->
     Q r fs' t) ->
  post (installPresenceDependencies E p) fs Q.
Proof.
  intros H. unfold post.
  destruct (install_no_runs E p fs) as (? & ? & ? & ?). by apply H.
Qed.

(** ** compilePresence, one presence *)

Section SingleUnit.

Variable E : Env.

Lemma single_returns_clean base options p fs errs :
  res (compileSingle E base options p fs) = Ok errs ->
  fs_out (compileSingle E base options p fs)
    !! resolve E [getPresenceFolder E p; "tsconfig.json"] = None.
Proof.
  revert errs.
  change (post (compileSingle E base options p) fs (fun r fs' _ =>
    forall errs, r = Ok errs ->
      fs' !! resolve E [getPresenceFolder E p; "tsconfig.json"] = None)).
  unfold compileSingle.
  wp post_writeFileSync; [intros _ | by intros].
  wp post_install. intros [[]|e] fs1 t1 _ _ _ _; [| done].
  wp post_info.
  wp post_existsSync.
  wp post_bundle.
  wp post_existsSync.
  wp post_guarded_rm. intros t2 _ _ _ _.
  destruct (error _); [apply post_throw; intros; apply lookup_delete_eq |].
  apply post_bind.
  destruct (length _ =? 0)%nat; [destruct (negb _) |];
    (apply post_info || apply post_ret); apply post_ret;
    intros; apply lookup_delete_eq.
Qed.

End SingleUnit.

(** C8. A single-unit call that returns an empty diagnostic list leaves no
    [tsconfig.json] in the unit's directory, whatever the directory held
    before the call. *)
Theorem single_success_leaves_no_tsconfig (E : Env) (p : string)
    (options : Options) (fs : FS) :
  let o := outcome (compilePresence E (Single p) options fs) in
  res o = Ok [] ->
  fs_out o !! resolve E [getPresenceFolder E p; "tsconfig.json"] = None.
Proof. simpl. apply single_returns_clean. Qed.

Lemma single_success_leaves_no_tsconfig_witness :
  Demo.with_tsconfig !! "/repo/websites/A/a/tsconfig.json" = Some "{}" /\
  fs_out (outcome (compilePresence Demo.quiet (Single "a") Demo.no_options
                     Demo.with_tsconfig))
    !! "/repo/websites/A/a/tsconfig.json" = None.
Proof.
  split; [reflexivity |].
  apply (single_success_leaves_no_tsconfig Demo.quiet "a" Demo.no_options
           Demo.with_tsconfig).
  vm_compute. reflexivity.
Defined.

(** C10. The call mutates the caller's options object: afterwards [emit]
    and [transpileOnly] are set, to the caller's value or to their defaults
    [true] and [false], and a single-unit call made with no [output] leaves
    the resolved unit directory in [output]. *)
Theorem options_are_mutated (E : Env) (target : Target) (options : Options) (fs : FS) :
  let o := options_after (compilePresence E target options fs) in
  emit o = Some (default true (emit options)) /\
  transpileOnly o = Some (default false (transpileOnly options)) /\
  (forall p, target = Single p -> output options = None ->
     output o = Some (getPresenceFolder E p)).
Proof.
  destruct target as [p | ps]; simpl; unfold set_output; simpl.
  - destruct (truthy_string (output options)) eqn:Ho; simpl; repeat split; auto.
    + intros q [= <-] Hq. rewrite Hq in Ho. discriminate.
    + by intros q [= <-] _.
  - repeat split; auto. discriminate.
Qed.

Lemma options_are_mutated_witness :
  options_after (compilePresence Demo.quiet (Single "a") Demo.no_options Demo.repo) =
  {| output := Some "/repo/websites/A/a"; transpileOnly := Some false; emit := Some true |}.
Proof.
  pose proof (options_are_mutated Demo.quiet (Single "a") Demo.no_options Demo.repo)
    as (He & Ht & Ho).
  specialize (Ho "a" eq_refl eq_refl).
  destruct (options_after _) as [o t e]. simpl in *. by subst.
Defined.

(** C1. The clean-up is missing on two exit paths.  In a single-unit call
    whose dependency installation fails, and in a batch whose bundler run
    ends in a fatal error, the call throws and the [tsconfig.json] it wrote
    is still in the unit's directory. *)
Theorem tsconfig_survives_thrown_errors :
  let single :=
    outcome (compilePresence Demo.failing_install (Single "a") Demo.no_options
               Demo.with_manifest) in
  let batch :=
    outcome (compilePresence Demo.crash_a (Batch ["a"]) Demo.no_options Demo.repo) in
  (res single = Throw "npm exited with code 1" /\
   fs_out single !! "/repo/websites/A/a/tsconfig.json" = Some tsconfig) /\
  (res batch = Throw "bundler crashed" /\
   fs_out batch !! "/repo/websites/A/a/tsconfig.json" = Some tsconfig).
Proof. vm_compute. auto. Qed.

(** C2. The single branch decides on the unfiltered list.  When the bundler
    reports nothing but a [ModuleBuildError], the call returns the empty
    list and reports no success; the array branch, which filters first,
    reports success on the same unit. *)
Theorem single_success_decided_before_filter :
  let single :=
    outcome (compilePresence Demo.wrapper_only_a (Single "a") Demo.no_options Demo.repo) in
  let batch :=
    outcome (compilePresence Demo.wrapper_only_a (Batch ["a"]) Demo.no_options Demo.repo) in
  (res single = Ok [] /\ successes (trace single) = []) /\
  (res batch = Ok [] /\ successes (trace batch) = [CompiledMany 1]).
Proof. vm_compute. auto. Qed.

(** ** Bundler runs of a call *)

Section Runs.

Variable E : Env.
Variable P : Configuration * FS * Job -> Prop.

Lemma compileSingle_runs base options p fs :
  (forall fs1,
     let cfg := singleConfig base (getPresenceFolder E p)
                  (file_exists fs1 (resolve E [getPresenceFolder E p; "iframe.ts"])) in
     P (cfg, fs1, (webpack E cfg fs1).1)) ->
  Forall P (bundler_runs (trace (compileSingle E base options p fs))).
Proof.
  intros HP.
  change (post (compileSingle E base options p) fs
            (fun _ _ t => Forall P (bundler_runs t))).
  unfold compileSingle.
  wp post_writeFileSync; [intros _ | intros _; constructor].
  wp post_install. intros r fs1 t1 Hr _ _ _.
  destruct r; [| rewrite bundler_runs_app, Hr; constructor].
  wp post_info.
  wp post_existsSync.
  wp post_bundle.
  wp post_existsSync.
  wp post_guarded_rm. intros t2 _ Ht2 _ _.
  destruct (error _).
  - apply post_throw. rewrite !bundler_runs_app, Hr, Ht2. simpl.
    repeat constructor. apply HP.
  - apply post_bind.
    destruct (length _ =? 0)%nat; [destruct (negb _) |];
      (apply post_info || apply post_ret); apply post_ret;
      rewrite !bundler_runs_app, Hr, Ht2; simpl; repeat constructor; apply HP.
Qed.

Lemma compile_each_runs base options ps :
  (forall p fs1, p ∈ ps ->
     let cfg := batchConfig base options (getPresenceFolder E p)
                  (file_exists fs1 (resolve E [getPresenceFolder E p; "iframe.ts"])) in
     P (cfg, fs1, (webpack E cfg fs1).1)) ->
  forall acc fs,
    Forall P (bundler_runs (trace (compile_each E base options ps acc fs))).
Proof.
  induction ps as [| p ps IH]; intros HP acc fs; [constructor |].
  change (post (compile_each E base options (p :: ps) acc) fs
            (fun _ _ t => Forall P (bundler_runs t))).
  cbn [compile_each].
  wp post_writeFileSync; [intros _ | intros _; constructor].
  wp post_install. intros r fs1 t1 Hr _ _ _.
  destruct r; [| rewrite bundler_runs_app, Hr; constructor].
  wp post_existsSync.
  wp post_bundle.
  destruct (error _).
  - apply post_throw. rewrite !bundler_runs_app, Hr. simpl.
    repeat constructor. apply HP. left.
  - unfold post. rewrite !bundler_runs_app, Hr. simpl. constructor.
    + apply HP. left.
    + apply IH. intros q fs2 Hq. apply HP. by right.
Qed.

End Runs.

Section Batch.

Variable E : Env.

(** The second loop never raises and adds nothing but removals. *)
Lemma remove_each_spec ps fs :
  res (remove_each E ps fs) = Ok tt /\
  bundler_runs (trace (remove_each E ps fs)) = [] /\
  writes (trace (remove_each E ps fs)) = [] /\
  installs (trace (remove_each E ps fs)) = [] /\
  successes (trace (remove_each E ps fs)) = [].
Proof.
  revert fs. induction ps as [| p ps IH]; intros fs; [done |].
  change (post (remove_each E (p :: ps)) fs (fun r _ t =>
    r = Ok tt /\ bundler_runs t = [] /\ writes t = [] /\ installs t = [] /\
    successes t = [])).
  cbn [remove_each].
  wp post_existsSync.
  wp post_guarded_rm. intros t Hw Hb Hi Hs.
  unfold post. rewrite !bundler_runs_app, !writes_app, !installs_app, !successes_app.
  rewrite Hw, Hb, Hi, Hs. simpl. apply IH.
Qed.

(** The array branch around its first loop. *)
Lemma compileBatch_shape base options ps fs :
  let loop := compile_each E base options ps [] fs in
  let o := compileBatch E base options ps fs in
  match res loop with
  | Throw e =>
      o = {| res := Throw e; fs_out := fs_out loop;
             trace := EvInfo (CompilingMany (length ps)) :: trace loop |}
  | Ok errs =>
      let kept := filter (fun e => not_ModuleBuildError e = true) errs in
      exists t,
        res o = Ok kept /\
        trace o = EvInfo (CompilingMany (length ps)) :: trace loop ++ t /\
        bundler_runs t = [] /\ writes t = [] /\ installs t = [] /\
        successes t =
          match kept with
          | [] => [if negb (truthy (transpileOnly options))
                   then CompiledMany (length ps) else TranspiledMany (length ps)]
          | _ => []
          end
  end.
Proof.
  cbv zeta. unfold compileBatch, mbind, M_bind.
  rewrite (bind_Ok (info _) _ fs tt eq_refl). simpl fs_out. simpl trace.
  destruct (res (compile_each E base options ps [] fs)) as [errs | e] eqn:Hloop.
  - rewrite (bind_Ok (compile_each E base options ps []) _ fs errs Hloop).
    destruct (remove_each_spec ps (fs_out (compile_each E base options ps [] fs)))
      as (Hr & Hb & Hw & Hi & Hs).
    rewrite (bind_Ok (remove_each E ps) _ _ tt Hr).
    set (kept := filter _ errs). simpl.
    destruct kept as [| k kept']; simpl.
    + destruct (negb _); simpl; eexists; (split; [done |]); (split; [done |]);
        rewrite bundler_runs_app, writes_app, installs_app, successes_app,
          Hb, Hw, Hi, Hs; done.
    + eexists; (split; [done |]); (split; [done |]).
      rewrite !app_nil_r. done.
  - by rewrite (bind_Throw (compile_each E base options ps []) _ fs e Hloop).
Qed.

Lemma compileBatch_runs base options ps fs :
  bundler_runs (trace (compileBatch E base options ps fs)) =
  bundler_runs (trace (compile_each E base options ps [] fs)).
Proof.
  pose proof (compileBatch_shape base options ps fs) as H. cbv zeta in H.
  destruct (res (compile_each _ _ _ _ _ _)).
  - destruct H as (t & _ & -> & Hb & _).
    change (EvInfo ?m :: ?l) with ([EvInfo m] ++ l).
    rewrite !bundler_runs_app, Hb. simpl. apply app_nil_r.
  - by rewrite H.
Qed.

End Batch.

(** ** The first loop of the array branch *)

Section Loop.

Variable E : Env.
Variable base : Configuration.
Variable options : Options.

Let tsconfig_of (p : string) : string :=
  resolve E [getPresenceFolder E p; "tsconfig.json"].

(** A turn of the loop in a directory that does not exist. *)
Lemma compile_each_missing p ps acc fs :
  file_exists fs (parent (tsconfig_of p)) = false ->
  compile_each E base options (p :: ps) acc fs =
  {| res := Throw "ENOENT"; fs_out := fs; trace := [] |}.
Proof.
  intros Hdir. cbn [compile_each]. unfold mbind, M_bind, bind, writeFileSync.
  fold (tsconfig_of p). by rewrite Hdir.
Qed.

(** One turn of the loop in a directory that exists, with its three ways
    out. *)
Lemma compile_each_cons p ps acc fs :
  file_exists fs (parent (tsconfig_of p)) = true ->
  let inst := installPresenceDependencies E p (<[tsconfig_of p := tsconfig]> fs) in
  let cfg := batchConfig base options (getPresenceFolder E p)
               (file_exists (fs_out inst)
                  (resolve E [getPresenceFolder E p; "iframe.ts"])) in
  let r := webpack E cfg (fs_out inst) in
  let rest := compile_each E base options ps (acc ++ job_errors r.1) r.2 in
  compile_each E base options (p :: ps) acc fs =
  match res inst with
  | Throw e =>
      {| res := Throw e; fs_out := fs_out inst;
         trace := EvWrite (tsconfig_of p) tsconfig :: trace inst |}
  | Ok _ =>
      match error r.1 with
      | Some e =>
          {| res := Throw e; fs_out := r.2;
             trace := EvWrite (tsconfig_of p) tsconfig
                        :: trace inst ++ [EvWebpack cfg (fs_out inst) r.1] |}
      | None =>
          {| res := res rest; fs_out := fs_out rest;
             trace := EvWrite (tsconfig_of p) tsconfig
                        :: trace inst ++ EvWebpack cfg (fs_out inst) r.1 :: trace rest |}
      end
  end.
Proof.
  intros Hdir inst cfg r rest. cbn [compile_each]. unfold mbind, M_bind.
  assert (writeFileSync (tsconfig_of p) tsconfig fs =
          {| res := Ok tt; fs_out := <[tsconfig_of p := tsconfig]> fs;
             trace := [EvWrite (tsconfig_of p) tsconfig] |}) as Hw.
  { unfold writeFileSync. by rewrite Hdir. }
  fold (tsconfig_of p).
  rewrite (bind_Ok (writeFileSync _ _) _ fs tt) by by rewrite Hw.
  rewrite Hw. cbn [fs_out trace]. fold inst.
  destruct (res inst) as [[] | e] eqn:Hinst.
  - rewrite (bind_Ok (installPresenceDependencies E p) _ _ tt Hinst). fold inst.
    rewrite (bind_Ok (existsSync _) _ (fs_out inst) _ eq_refl).
    cbn [existsSync fs_out trace]. fold cfg.
    rewrite (bind_Ok (bundle E cfg) _ (fs_out inst) _ eq_refl).
    cbn [bundle fs_out trace res]. fold r.
    destruct (error r.1); simpl; [done |]. by fold rest.
  - by rewrite (bind_Throw (installPresenceDependencies E p) _ _ e Hinst).
Qed.

(** A loop that completes has run the bundler once per unit, in order, with
    no fatal error, and returns what the runs reported, in order. *)
Lemma compile_each_Ok ps : forall acc fs errs,
  let o := compile_each E base options ps acc fs in
  res o = Ok errs ->
  errs = acc ++ concat (map (fun r => job_errors r.2) (bundler_runs (trace o))) /\
  map (fun r => cfg_context r.1.1) (bundler_runs (trace o)) =
    map (fun p => Some (getPresenceFolder E p)) ps /\
  Forall (fun r => error r.2 = None) (bundler_runs (trace o)).
Proof.
  induction ps as [| p ps IH]; intros acc fs errs; cbv zeta.
  - simpl. intros [= <-]. by rewrite app_nil_r.
  - destruct (file_exists fs (parent (tsconfig_of p))) eqn:Hdir;
      [| by rewrite (compile_each_missing _ _ _ _ Hdir)].
    rewrite (compile_each_cons _ _ _ _ Hdir). cbv zeta.
    destruct (install_no_runs E p (<[tsconfig_of p := tsconfig]> fs)) as (Hr & _).
    destruct (res (installPresenceDependencies _ _ _)); [| done].
    destruct (error _) eqn:Herr; [done |]. cbn [res trace]. intros Hres.
    destruct (IH _ _ _ Hres) as (-> & Hctx & Hno).
    change (EvWrite ?a ?b :: ?t1 ++ ?ev :: ?t2) with ([EvWrite a b] ++ t1 ++ [ev] ++ t2).
    rewrite !bundler_runs_app, Hr. simpl.
    rewrite <- app_assoc. split; [done |]. split; [by f_equal | by constructor].
Qed.

(** A fatal bundler run is the last thing the loop does. *)
Lemma compile_each_fatal ps : forall acc fs k r e,
  let o := compile_each E base options ps acc fs in
  bundler_runs (trace o) !! k = Some r ->
  error r.2 = Some e ->
  res o = Throw e /\
  (exists t, trace o = t ++ [EvWebpack r.1.1 r.1.2 r.2]) /\
  writes (trace o) = map tsconfig_of (take (S k) ps) /\
  map (fun r => cfg_context r.1.1) (bundler_runs (trace o)) =
    map (fun p => Some (getPresenceFolder E p)) (take (S k) ps) /\
  sublist (installs (trace o)) (map (getPresenceFolder E) (take (S k) ps)) /\
  successes (trace o) = [].
Proof.
  induction ps as [| p ps IH]; intros acc fs k r e; cbv zeta; [by destruct k |].
  destruct (file_exists fs (parent (tsconfig_of p))) eqn:Hdir;
    [| rewrite (compile_each_missing _ _ _ _ Hdir); by destruct k].
  rewrite (compile_each_cons _ _ _ _ Hdir). cbv zeta.
  destruct (install_no_runs E p (<[tsconfig_of p := tsconfig]> fs))
    as (Hr & Hw & Hs & Hi).
  set (inst := installPresenceDependencies _ _ _) in *. clearbody inst.
  destruct (res inst).
  2:{ cbn [trace]. change (EvWrite ?a ?b :: ?t1) with ([EvWrite a b] ++ t1).
      rewrite bundler_runs_app, Hr. by destruct k. }
  set (cfg := batchConfig _ _ _ _).
  assert (cfg_context cfg = Some (getPresenceFolder E p)) as Hctx by done.
  clearbody cfg.
  set (w := webpack E cfg (fs_out inst)). clearbody w.
  destruct (error w.1) as [e0 |] eqn:Herr; cbn [res trace].
  - change (EvWrite ?a ?b :: ?t1 ++ [?ev]) with ([EvWrite a b] ++ t1 ++ [ev]).
    rewrite !bundler_runs_app, !writes_app, !installs_app, !successes_app.
    rewrite Hr, Hw, Hs. simpl.
    destruct k as [| k]; [| by destruct k]. simpl. intros [= <-]. simpl.
    rewrite Herr. intros [= <-].
    repeat split; auto.
    + by exists ([EvWrite (tsconfig_of p) tsconfig] ++ trace inst).
    + by rewrite Hctx.
    + by rewrite app_nil_r.
  - change (EvWrite ?a ?b :: ?t1 ++ ?ev :: ?t2) with ([EvWrite a b] ++ t1 ++ [ev] ++ t2).
    rewrite !bundler_runs_app, !writes_app, !installs_app, !successes_app.
    rewrite Hr, Hw, Hs. simpl.
    destruct k as [| k]; simpl.
    { intros [= <-]. simpl. rewrite Herr. discriminate. }
    intros Hk He. destruct (IH _ _ _ _ _ Hk He) as (H1 & (t & H2) & H3 & H4 & H5 & H6).
    repeat split; auto.
    + exists ([EvWrite (tsconfig_of p) tsconfig] ++ trace inst ++ [EvWebpack cfg (fs_out inst) w.1] ++ t).
      rewrite H2. by rewrite <- !app_assoc.
    + by rewrite H3.
    + by rewrite H4, Hctx.
    + change (getPresenceFolder E p :: ?l) with ([getPresenceFolder E p] ++ l).
      by apply sublist_app.
Qed.

End Loop.

Lemma filter_ext_elem {A} (P1 P2 : A -> Prop)
    `{!forall x, Decision (P1 x), !forall x, Decision (P2 x)} (l : list A) :
  (forall x, x ∈ l -> (P1 x <-> P2 x)) ->
  filter P1 l = filter P2 l.
Proof.
  induction l as [| a l IH]; intros Hext; [done |].
  assert (filter P1 l = filter P2 l) as Hl.
  { apply IH. intros x Hx. apply Hext. by right. }
  destruct (decide (P1 a)) as [Ha | Ha].
  - rewrite !filter_cons_True; [by rewrite Hl | | done]. apply Hext; [left | done].
  - rewrite !filter_cons_False; [done | | done].
    intros Hb. apply Ha, Hext; [left | done].
Qed.

(** C4. When the bundler run of the unit at index [k] (counting from 0) of
    a batch ends in a fatal error, the call throws that error; the run is
    the last effect of the call; configurations were written and the
    bundler was started for the units up to index [k] and for no other;
    the installer ran for none but these; no success is reported. *)
Theorem fatal_bundler_run_aborts_batch (E : Env) (ps : list string)
    (options : Options) (fs : FS) (k : nat) (r : Configuration * FS * Job)
    (e : JsError) :
  let o := outcome (compilePresence E (Batch ps) options fs) in
  bundler_runs (trace o) !! k = Some r ->
  error r.2 = Some e ->
  res o = Throw e /\
  (exists t, trace o = t ++ [EvWebpack r.1.1 r.1.2 r.2]) /\
  writes (trace o) =
    map (fun p => resolve E [getPresenceFolder E p; "tsconfig.json"]) (take (S k) ps) /\
  map (fun r => cfg_context r.1.1) (bundler_runs (trace o)) =
    map (fun p => Some (getPresenceFolder E p)) (take (S k) ps) /\
  sublist (installs (trace o)) (map (getPresenceFolder E) (take (S k) ps)) /\
  successes (trace o) = [].
Proof.
  unfold compilePresence; cbn [outcome]; cbv zeta.
  set (O := set_defaults options). set (base := webpackConfig E O).
  rewrite compileBatch_runs. intros Hk He.
  pose proof (compileBatch_shape E base O ps fs) as Hshape. cbv zeta in Hshape.
  destruct (res (compile_each E base O ps [] fs)) as [errs | e'] eqn:Hloop.
  - destruct (compile_each_Ok E base O ps [] fs errs Hloop) as (_ & _ & Hno).
    rewrite Forall_lookup in Hno. specialize (Hno k r Hk). congruence.
  - destruct (compile_each_fatal E base O ps [] fs k r e Hk He)
      as (H1 & (t & H2) & H3 & H4 & H5 & H6).
    rewrite Hshape. cbn [res trace].
    change (EvInfo ?m :: ?l) with ([EvInfo m] ++ l).
    rewrite writes_app, installs_app, successes_app. simpl.
    repeat split; auto.
    + congruence.
    + exists (EvInfo (CompilingMany (length ps)) :: t). by rewrite H2.
Qed.

Lemma fatal_bundler_run_aborts_batch_witness :
  res (outcome (compilePresence Demo.crash_b (Batch ["a"; "b"; "c"])
                  Demo.no_options Demo.repo)) = Throw "bundler crashed" /\
  writes (trace (outcome (compilePresence Demo.crash_b (Batch ["a"; "b"; "c"])
                            Demo.no_options Demo.repo))) =
    ["/repo/websites/A/a/tsconfig.json"; "/repo/websites/B/b/tsconfig.json"] /\
  successes (trace (outcome (compilePresence Demo.crash_b (Batch ["a"; "b"; "c"])
                               Demo.no_options Demo.repo))) = [].
Proof.
  set (E := Demo.crash_b).
  set (o := outcome (compilePresence E (Batch ["a"; "b"; "c"]) Demo.no_options Demo.repo)).
  assert (exists r, bundler_runs (trace o) !! 1 = Some r /\
                    error r.2 = Some "bundler crashed") as (r & Hk & He).
  { eexists. split; vm_compute; reflexivity. }
  destruct (fatal_bundler_run_aborts_batch E ["a"; "b"; "c"] Demo.no_options Demo.repo
              1 r "bundler crashed" Hk He) as (H1 & _ & H3 & _ & _ & H6).
  repeat split; assumption.
Defined.

(** Where every wrapper comes with an underlying diagnostic for the same
    fault, dropping the diagnostics named [ModuleBuildError] is dropping the
    wrapped ones. *)
Lemma filter_drops_wrapped same_fault (all : list WebpackError) :
  Forall (fun w => is_wrapper w = true -> has_underlying same_fault all w = true) all ->
  filter (fun e => not_ModuleBuildError e = true) all = drop_wrapped same_fault all.
Proof.
  intros Hall. unfold drop_wrapped. apply filter_ext_elem.
  intros x Hx. rewrite Forall_forall in Hall. specialize (Hall x Hx).
  unfold not_ModuleBuildError, is_wrapper in *.
  destruct (String.eqb (name x) "ModuleBuildError"); simpl; [| done].
  rewrite Hall; done.
Qed.

(** C5, as the specification has it, fails when a wrapper stands alone: a
    batch whose only diagnostic is a [ModuleBuildError] returns the empty
    list, whatever "the same fault" is taken to mean, while the list from
    which only the wrapped diagnostics are dropped still holds the
    wrapper. *)
Lemma batch_drops_lone_wrapper :
  ~ exists same_fault,
      res (outcome (compilePresence Demo.wrapper_only_a (Batch ["a"])
                      Demo.no_options Demo.repo)) =
      Ok (drop_wrapped same_fault
            (concat (map (fun r => job_errors r.2)
               (bundler_runs (trace (outcome
                  (compilePresence Demo.wrapper_only_a (Batch ["a"])
                     Demo.no_options Demo.repo))))))).
Proof.
  intros [same_fault H].
  assert (res (outcome (compilePresence Demo.wrapper_only_a (Batch ["a"])
                          Demo.no_options Demo.repo)) = Ok []) as Hres
    by (vm_compute; reflexivity).
  assert (concat (map (fun r => job_errors r.2)
            (bundler_runs (trace (outcome
               (compilePresence Demo.wrapper_only_a (Batch ["a"])
                  Demo.no_options Demo.repo))))) = [Demo.wrapper]) as Hall
    by (vm_compute; reflexivity).
  rewrite Hres, Hall in H. vm_compute in H. discriminate.
Qed.

(** C5, amended.  A batch that returns normally has run the bundler once
    per unit, in the order the caller gave, and returns the diagnostics of
    these runs, concatenated in that order, without any of those named
    [ModuleBuildError], whether or not an underlying diagnostic comes with
    them. *)
Theorem batch_returns_filtered_concatenation (E : Env) (ps : list string)
    (options : Options) (fs : FS) (errs : list WebpackError) :
  let o := outcome (compilePresence E (Batch ps) options fs) in
  let runs := bundler_runs (trace o) in
  let all := concat (map (fun r => job_errors r.2) runs) in
  res o = Ok errs ->
  map (fun r => cfg_context r.1.1) runs =
    map (fun p => Some (getPresenceFolder E p)) ps /\
  errs = filter (fun e => not_ModuleBuildError e = true) all.
Proof.
  unfold compilePresence; cbn [outcome]; cbv zeta.
  set (O := set_defaults options). set (base := webpackConfig E O).
  rewrite compileBatch_runs. intros Hres.
  pose proof (compileBatch_shape E base O ps fs) as Hshape. cbv zeta in Hshape.
  destruct (res (compile_each E base O ps [] fs)) as [errs0 | e'] eqn:Hloop.
  2:{ rewrite Hshape in Hres. discriminate. }
  destruct Hshape as (t & Hr & _). rewrite Hr in Hres. injection Hres as <-.
  destruct (compile_each_Ok E base O ps [] fs errs0 Hloop) as (-> & Hctx & _).
  simpl. by split.
Qed.

Lemma batch_returns_filtered_concatenation_witness :
  [Demo.ts2322] =
  filter (fun e => not_ModuleBuildError e = true)
    (concat (map (fun r => job_errors r.2)
       (bundler_runs (trace (outcome
          (compilePresence Demo.typed_b (Batch ["a"; "b"]) Demo.no_options Demo.repo)))))).
Proof.
  refine (proj2 (batch_returns_filtered_concatenation Demo.typed_b ["a"; "b"]
                   Demo.no_options Demo.repo [Demo.ts2322] _)).
  vm_compute. reflexivity.
Defined.

(** ** Where the bundler is told to write *)

(** C3, as the specification has it, fails in the array branch: with
    [options.output] supplied, the run of a batch is still configured to
    write into the unit's own directory. *)
Lemma batch_ignores_options_output :
  ~ Forall (output_as_specified Demo.to_out)
      (bundler_runs (trace (outcome
         (compilePresence Demo.quiet (Batch ["a"]) Demo.to_out Demo.repo)))).
Proof.
  intros Hall.
  assert (exists r, bundler_runs (trace (outcome
                      (compilePresence Demo.quiet (Batch ["a"]) Demo.to_out Demo.repo))) !! 0
                    = Some r /\
                    (path <$> cfg_output r.1.1) = Some (Some "/repo/websites/A/a") /\
                    cfg_context r.1.1 = Some "/repo/websites/A/a")
    as (r & Hr & Hpath & Hctx).
  { eexists. repeat split; vm_compute; reflexivity. }
  rewrite Forall_lookup in Hall.
  destruct (Hall 0 r Hr) as (dir & out & Hdir & Hout & Hp).
  rewrite Hout in Hpath. simpl in Hpath. rewrite Hp in Hpath.
  unfold specified_output_path in Hpath. simpl in Hpath. discriminate.
Qed.

(** In the single branch [webpackConfig] is built before [options.output]
    receives its default, so a call made without [output] starts the
    bundler with no output path at all. *)
Lemma single_default_comes_too_late :
  (fun r => path <$> cfg_output r.1.1) <$>
    bundler_runs (trace (outcome
      (compilePresence Demo.quiet (Single "a") Demo.no_options Demo.repo))) =
  [Some None].
Proof. vm_compute. reflexivity. Qed.

(** C3, amended.  With [emit] enabled, every bundler run of a batch is
    configured to write into the directory of its own unit, whatever
    [options.output] holds; the run of a single-unit call is configured to
    write into [options.output] when the caller supplies it and the compiler
    was constructed without a bundler override of [output]. *)
Theorem output_directory_by_branch (E : Env) (options : Options) (fs : FS) :
  default true (emit options) = true ->
  (forall ps,
     Forall output_in_context
       (bundler_runs (trace (outcome (compilePresence E (Batch ps) options fs))))) /\
  (forall p o,
     ov_output (ctor_webpack E) = None ->
     output options = Some o ->
     Forall (output_in o)
       (bundler_runs (trace (outcome (compilePresence E (Single p) options fs))))).
Proof.
  intros Hemit. split.
  - intros ps. unfold compilePresence; cbn [outcome].
    rewrite compileBatch_runs. apply compile_each_runs.
    intros p fs1 _ cfg. exists (getPresenceFolder E p). simpl. by rewrite Hemit.
  - intros p o Hov Ho. unfold compilePresence; cbn [outcome].
    apply compileSingle_runs. intros fs1 cfg.
    unfold output_in. simpl. by rewrite Hov, Hemit, Ho.
Qed.

Lemma output_directory_by_branch_witness :
  Forall output_in_context
    (bundler_runs (trace (outcome
       (compilePresence Demo.quiet (Batch ["a"; "b"]) Demo.to_out Demo.repo)))) /\
  Forall (output_in "/out")
    (bundler_runs (trace (outcome
       (compilePresence Demo.quiet (Single "a") Demo.to_out Demo.repo)))).
Proof.
  destruct (output_directory_by_branch Demo.quiet Demo.to_out Demo.repo eq_refl) as [Hb Hs].
  split; [apply Hb | apply Hs; reflexivity].
Defined.

(** ** Compiling twice *)

Section SingleRun.

Variable E : Env.

Lemma install_run p fs :
  let m := file_exists fs (resolve E [getPresenceFolder E p; "package.json"]) in
  let r := execSync E "npm install --quiet --loglevel=error" (getPresenceFolder E p) fs in
  res (installPresenceDependencies E p fs) =
    (if m then match r.1 with Some e => Throw e | None => Ok tt end else Ok tt) /\
  fs_out (installPresenceDependencies E p fs) = (if m then r.2 else fs).
Proof.
  unfold installPresenceDependencies, mbind, M_bind, bind, existsSync. simpl.
  by destruct (file_exists _ _).
Qed.

(** The single branch in a directory that does not exist. *)
Lemma compileSingle_missing base options p fs :
  file_exists fs (parent (resolve E [getPresenceFolder E p; "tsconfig.json"])) = false ->
  compileSingle E base options p fs =
  {| res := Throw "ENOENT"; fs_out := fs; trace := [] |}.
Proof.
  intros Hdir. unfold compileSingle, mbind, M_bind, bind, writeFileSync.
  by rewrite Hdir.
Qed.

(** The result and the final filesystem of the single branch in a directory
    that exists. *)
Lemma compileSingle_run base options p fs :
  file_exists fs (parent (resolve E [getPresenceFolder E p; "tsconfig.json"])) = true ->
  let f := resolve E [getPresenceFolder E p; "tsconfig.json"] in
  let inst := installPresenceDependencies E p (<[f := tsconfig]> fs) in
  let cfg := singleConfig base (getPresenceFolder E p)
               (file_exists (fs_out inst)
                  (resolve E [getPresenceFolder E p; "iframe.ts"])) in
  let w := webpack E cfg (fs_out inst) in
  res (compileSingle E base options p fs) =
    match res inst with
    | Throw e => Throw e
    | Ok _ =>
        match error w.1 with
        | Some e => Throw e
        | None => Ok (filter (fun e => not_ModuleBuildError e = true) (job_errors w.1))
        end
    end /\
  fs_out (compileSingle E base options p fs) =
    match res inst with
    | Throw _ => fs_out inst
    | Ok _ => delete f w.2
    end.
Proof.
  intros Hdir f inst cfg w.
  change (post (compileSingle E base options p) fs (fun r fs' _ =>
    r = match res inst with
        | Throw e => Throw e
        | Ok _ =>
            match error w.1 with
            | Some e => Throw e
            | None => Ok (filter (fun e => not_ModuleBuildError e = true) (job_errors w.1))
            end
        end /\
    fs' = match res inst with Throw _ => fs_out inst | Ok _ => delete f w.2 end)).
  unfold compileSingle. fold f.
  wp post_writeFileSync; [intros _ | intros Hno; unfold f in Hno; congruence].
  apply post_bind. unfold post at 1. fold inst. destruct (res inst); [| done].
  wp post_info.
  wp post_existsSync.
  wp post_bundle. fold cfg. fold w.
  wp post_existsSync.
  wp post_guarded_rm. intros _ _ _ _ _.
  destruct (error w.1); [by apply post_throw |].
  apply post_bind.
  destruct (length _ =? 0)%nat; [destruct (negb _) |];
    (apply post_info || apply post_ret); by apply post_ret.
Qed.

End SingleRun.



(** ** The whole trace of a call *)

Lemma removals_app t1 t2 : removals (t1 ++ t2) = removals t1 ++ removals t2.
Proof. apply omap_app. Qed.

(** The guarded removal, with its exact trace. *)
Lemma post_guarded_rm_exact f fs (Q : Result unit -> FS -> list Event -> Prop) :
  Q (Ok tt) (delete f fs) (if file_exists fs f then [EvRm f] else []) ->
  post (if file_exists fs f then rmSync f else ret tt) fs Q.
Proof.
  intros H. destruct (file_exists fs f) eqn:Hf; unfold post, rmSync, ret; simpl.
  - by rewrite Hf.
  - by rewrite <- (delete_id fs f) at 1 by by apply file_exists_false.
Qed.

Section Traces.

Variable E : Env.

Lemma install_trace p fs :
  trace (installPresenceDependencies E p fs) =
    if file_exists fs (resolve E [getPresenceFolder E p; "package.json"])
    then [EvInfo (Installing (basename E (getPresenceFolder E p)));
          EvExec "npm install --quiet --loglevel=error" (getPresenceFolder E p)]
    else [].
Proof.
  destruct (file_exists _ _) eqn:H.
  - by apply install_present.
  - by rewrite (install_absent _ _ _ H).
Qed.

(** A failing installation needs a manifest. *)
Lemma install_Throw p fs e :
  res (installPresenceDependencies E p fs) = Throw e ->
  file_exists fs (resolve E [getPresenceFolder E p; "package.json"]) = true /\
  (execSync E "npm install --quiet --loglevel=error" (getPresenceFolder E p) fs).1 = Some e.
Proof.
  rewrite (proj1 (install_run E p fs)). cbv zeta.
  destruct (file_exists _ _); [| done].
  destruct (execSync _ _ _ _).1; [| done]. by intros [= ->].
Qed.

(** The trace of the single branch in a directory that exists, event by
    event. *)
Lemma compileSingle_trace base options p fs :
  file_exists fs (parent (tsconfig_path E p)) = true ->
  let f := tsconfig_path E p in
  let inst := installPresenceDependencies E p (<[f := tsconfig]> fs) in
  let cfg := singleConfig base (getPresenceFolder E p)
               (file_exists (fs_out inst)
                  (resolve E [getPresenceFolder E p; "iframe.ts"])) in
  let w := webpack E cfg (fs_out inst) in
  trace (compileSingle E base options p fs) =
    EvWrite f tsconfig :: trace inst ++
    match res inst with
    | Throw _ => []
    | Ok _ =>
        EvInfo (CompilingOne p) :: EvWebpack cfg (fs_out inst) w.1 ::
        (if file_exists w.2 f then [EvRm f] else []) ++
        match error w.1 with
        | Some _ => []
        | None =>
            if Nat.eqb (length (job_errors w.1)) 0
            then [EvInfo (if negb (truthy (transpileOnly options))
                          then CompiledOne p else TranspiledOne p)]
            else []
        end
    end.
Proof.
  intros Hdir f inst cfg w.
  change (post (compileSingle E base options p) fs (fun _ _ t =>
    t = EvWrite f tsconfig :: trace inst ++
        match res inst with
        | Throw _ => []
        | Ok _ =>
            EvInfo (CompilingOne p) :: EvWebpack cfg (fs_out inst) w.1 ::
            (if file_exists w.2 f then [EvRm f] else []) ++
            match error w.1 with
            | Some _ => []
            | None =>
                if Nat.eqb (length (job_errors w.1)) 0
                then [EvInfo (if negb (truthy (transpileOnly options))
                              then CompiledOne p else TranspiledOne p)]
                else []
            end
        end)).
  unfold compileSingle. fold (tsconfig_path E p). fold f.
  wp post_writeFileSync; [intros _ | intros Hno; unfold f in Hno; congruence].
  apply post_bind. unfold post at 1. fold inst.
  destruct (res inst); [| simpl; by rewrite app_nil_r].
  wp post_info.
  wp post_existsSync.
  wp post_bundle. fold cfg. fold w.
  wp post_existsSync.
  wp post_guarded_rm_exact.
  destruct (error w.1).
  - apply post_throw. simpl. by rewrite !app_nil_r.
  - apply post_bind.
    destruct (length _ =? 0)%nat; [destruct (negb _) |];
      (apply post_info || apply post_ret); apply post_ret; simpl;
      by rewrite ?app_nil_r.
Qed.

(** The second loop removes what is there, one unit after the other. *)
Lemma remove_each_cons p ps fs :
  fs_out (remove_each E (p :: ps) fs) =
    fs_out (remove_each E ps (delete (tsconfig_path E p) fs)) /\
  trace (remove_each E (p :: ps) fs) =
    (if file_exists fs (tsconfig_path E p) then [EvRm (tsconfig_path E p)] else []) ++
    trace (remove_each E ps (delete (tsconfig_path E p) fs)).
Proof.
  change (post (remove_each E (p :: ps)) fs (fun _ fs' t =>
    fs' = fs_out (remove_each E ps (delete (tsconfig_path E p) fs)) /\
    t = (if file_exists fs (tsconfig_path E p) then [EvRm (tsconfig_path E p)] else []) ++
        trace (remove_each E ps (delete (tsconfig_path E p) fs)))).
  cbn [remove_each]. fold (tsconfig_path E p).
  wp post_existsSync.
  wp post_guarded_rm_exact.
  unfold post. by split.
Qed.

Lemma remove_each_lookup ps fs k :
  fs_out (remove_each E ps fs) !! k =
    if decide (k ∈ map (tsconfig_path E) ps) then None else fs !! k.
Proof.
  revert fs. induction ps as [| p ps IH]; intros fs.
  - done.
  - rewrite (proj1 (remove_each_cons p ps fs)), IH. cbn [map].
    destruct (decide (k ∈ map (tsconfig_path E) ps)) as [Hin | Hout];
      destruct (decide (k ∈ tsconfig_path E p :: map (tsconfig_path E) ps))
        as [Hin' | Hout']; try done.
    + exfalso. apply Hout'. by right.
    + apply elem_of_cons in Hin' as [-> | ?]; [apply lookup_delete_eq | done].
    + apply lookup_delete_ne. intros <-. apply Hout'. left.
Qed.

Lemma remove_each_trace ps fs :
  Forall (fun ev => exists u, u ∈ ps /\ ev = EvRm (tsconfig_path E u))
    (trace (remove_each E ps fs)).
Proof.
  revert fs. induction ps as [| p ps IH]; intros fs; [constructor |].
  rewrite (proj2 (remove_each_cons p ps fs)). apply Forall_app. split.
  - destruct (file_exists _ _); repeat constructor. exists p. split; [left | done].
  - eapply Forall_impl; [apply IH |]. intros ev (u & Hu & ->).
    exists u. split; [by right | done].
Qed.

(** The array branch once its first loop has completed. *)
Lemma compileBatch_Ok base options ps fs errs :
  let loop := compile_each E base options ps [] fs in
  let kept := filter (fun e => not_ModuleBuildError e = true) errs in
  res loop = Ok errs ->
  compileBatch E base options ps fs =
    {| res := Ok kept;
       fs_out := fs_out (remove_each E ps (fs_out loop));
       trace :=
         EvInfo (CompilingMany (length ps)) :: trace loop ++
         trace (remove_each E ps (fs_out loop)) ++
         match kept with
         | [] => [EvInfo (if negb (truthy (transpileOnly options))
                          then CompiledMany (length ps)
                          else TranspiledMany (length ps))]
         | _ => []
         end |}.
Proof.
  cbv zeta. intros Hloop. unfold compileBatch, mbind, M_bind.
  rewrite (bind_Ok (info _) _ fs tt eq_refl). simpl fs_out. simpl trace.
  rewrite (bind_Ok (compile_each E base options ps []) _ fs errs Hloop).
  destruct (remove_each_spec E ps (fs_out (compile_each E base options ps [] fs)))
    as (Hr & _).
  rewrite (bind_Ok (remove_each E ps) _ _ tt Hr).
  set (kept := filter _ errs).
  destruct kept as [| k kept']; simpl.
  - destruct (negb _); simpl; by rewrite ?app_nil_r.
  - by rewrite ?app_nil_r.
Qed.

End Traces.

(** ** Further properties of the single branch *)

Section SingleSummary.

Variable E : Env.

Lemma install_readings p fs :
  bundler_runs (trace (installPresenceDependencies E p fs)) = [] /\
  removals (trace (installPresenceDependencies E p fs)) = [] /\
  successes (trace (installPresenceDependencies E p fs)) = [] /\
  writes (trace (installPresenceDependencies E p fs)) = [].
Proof. rewrite install_trace. by destruct (file_exists _ _). Qed.

(** What a single-unit call in a directory that exists leaves in its trace,
    by the way it ends. *)
Lemma compileSingle_summary base options p fs :
  file_exists fs (parent (tsconfig_path E p)) = true ->
  let f := tsconfig_path E p in
  let inst := installPresenceDependencies E p (<[f := tsconfig]> fs) in
  let cfg := singleConfig base (getPresenceFolder E p)
               (file_exists (fs_out inst)
                  (resolve E [getPresenceFolder E p; "iframe.ts"])) in
  let w := webpack E cfg (fs_out inst) in
  let o := compileSingle E base options p fs in
  match res inst with
  | Throw e =>
      res o = Throw e /\ fs_out o = fs_out inst /\
      trace o = EvWrite f tsconfig :: trace inst /\
      bundler_runs (trace o) = [] /\ removals (trace o) = [] /\
      successes (trace o) = []
  | Ok _ =>
      bundler_runs (trace o) = [(cfg, fs_out inst, w.1)] /\
      fs_out o = delete f w.2 /\
      removals (trace o) = (if file_exists w.2 f then [f] else []) /\
      match error w.1 with
      | Some e => res o = Throw e /\ successes (trace o) = []
      | None =>
          res o = Ok (filter (fun e => not_ModuleBuildError e = true) (job_errors w.1)) /\
          successes (trace o) =
            if Nat.eqb (length (job_errors w.1)) 0
            then [if negb (truthy (transpileOnly options))
                  then CompiledOne p else TranspiledOne p]
            else []
      end
  end.
Proof.
  intros Hdir. cbv zeta. unfold tsconfig_path in *.
  pose proof (compileSingle_run E base options p fs Hdir) as [Hres Hfs].
  pose proof (compileSingle_trace E base options p fs Hdir) as Ht.
  cbv zeta in Hres, Hfs, Ht. unfold tsconfig_path in Ht.
  rewrite Hres, Hfs, Ht. clear Hres Hfs Ht.
  destruct (install_readings p
              (<[resolve E [getPresenceFolder E p; "tsconfig.json"] := tsconfig]> fs))
    as (Hb & Hr & Hs & _).
  set (inst := installPresenceDependencies _ _ _) in *. clearbody inst.
  set (cfg := singleConfig _ _ _). clearbody cfg.
  set (w := webpack E cfg _). clearbody w.
  set (f := resolve E _).
  change (EvWrite f tsconfig :: trace inst ++ ?l)
    with ([EvWrite f tsconfig] ++ trace inst ++ l).
  rewrite !bundler_runs_app, !removals_app, !successes_app, Hb, Hr, Hs.
  destruct (res inst); [| rewrite app_nil_r; by repeat split].
  change (EvInfo (CompilingOne p) :: EvWebpack cfg (fs_out inst) w.1 :: ?l)
    with ([EvInfo (CompilingOne p); EvWebpack cfg (fs_out inst) w.1] ++ l).
  rewrite !bundler_runs_app, !removals_app, !successes_app.
  destruct (file_exists w.2 f), (error w.1); simpl;
    try destruct (length _ =? 0)%nat; simpl;
    try destruct (negb _); simpl; by repeat split.
Qed.

End SingleSummary.

Lemma transpileOnly_after_defaults options d :
  truthy (transpileOnly (set_output (set_defaults options) d)) =
  default false (transpileOnly options).
Proof. unfold set_output. by destruct (negb _). Qed.

(** X1. In a single-unit call the clean-up comes before the rethrow: when
    the bundler run ends in a fatal error, the call throws that error, the
    unit's [tsconfig.json] is gone and no success is reported. *)
Theorem single_fatal_bundler_cleans_up (E : Env) (p : string) (options : Options)
    (fs : FS) (k : nat) (r : Configuration * FS * Job) (e : JsError) :
  let o := outcome (compilePresence E (Single p) options fs) in
  bundler_runs (trace o) !! k = Some r ->
  error r.2 = Some e ->
  res o = Throw e /\
  fs_out o !! tsconfig_path E p = None /\
  successes (trace o) = [].
Proof.
  unfold compilePresence; cbn [outcome]; cbv zeta.
  destruct (file_exists fs (parent (tsconfig_path E p))) eqn:Hdir.
  2:{ rewrite (compileSingle_missing E _ _ p fs Hdir). by destruct k. }
  pose proof (compileSingle_summary E (webpackConfig E (set_defaults options))
                (set_output (set_defaults options) (getPresenceFolder E p)) p fs Hdir)
    as H.
  cbv zeta in H. set (inst := installPresenceDependencies _ _ _) in *.
  clearbody inst. destruct (res inst).
  - destruct H as (Hruns & Hfs & _ & Hend). rewrite Hruns, Hfs.
    destruct k as [| k]; [| done]. intros [= <-]. cbn [snd]. intros Herr.
    rewrite Herr in Hend. destruct Hend as [-> ->].
    split; [done |]. split; [apply lookup_delete_eq | done].
  - destruct H as (_ & _ & _ & -> & _). done.
Qed.

Lemma single_fatal_bundler_cleans_up_witness :
  res (outcome (compilePresence Demo.crash_a (Single "a") Demo.no_options
                  Demo.with_tsconfig)) = Throw "bundler crashed" /\
  fs_out (outcome (compilePresence Demo.crash_a (Single "a") Demo.no_options
                     Demo.with_tsconfig))
    !! "/repo/websites/A/a/tsconfig.json" = None.
Proof.
  assert (exists r, bundler_runs (trace (outcome
            (compilePresence Demo.crash_a (Single "a") Demo.no_options
               Demo.with_tsconfig))) !! 0 = Some r /\
          error r.2 = Some "bundler crashed") as (r & Hr & He).
  { eexists. split; vm_compute; reflexivity. }
  destruct (single_fatal_bundler_cleans_up Demo.crash_a "a" Demo.no_options
              Demo.with_tsconfig 0 r "bundler crashed" Hr He) as (H1 & H2 & _).
  by split.
Defined.

(** X2. A single-unit call that throws without having started the bundler
    has failed in one of two ways.  Either the directory of the unit does
    not exist: the write of [tsconfig.json] raised, nothing was done and the
    filesystem is as it was.  Or the installer raised: the trace is the
    write of [tsconfig.json], the installer message and the installer run,
    nothing is removed, and the filesystem is as the installer left it. *)
Theorem single_throw_before_bundler (E : Env) (p : string) (options : Options)
    (fs : FS) (e : JsError) :
  let o := outcome (compilePresence E (Single p) options fs) in
  let f := tsconfig_path E p in
  let folder := getPresenceFolder E p in
  let npm := execSync E "npm install --quiet --loglevel=error" folder
               (<[f := tsconfig]> fs) in
  res o = Throw e ->
  bundler_runs (trace o) = [] ->
  (file_exists fs (parent f) = false /\
   e = "ENOENT" /\ trace o = [] /\ fs_out o = fs) \/
  (file_exists fs (parent f) = true /\
   npm.1 = Some e /\
   trace o = [EvWrite f tsconfig; EvInfo (Installing (basename E folder));
              EvExec "npm install --quiet --loglevel=error" folder] /\
   fs_out o = npm.2).
Proof.
  unfold compilePresence; cbn [outcome]; cbv zeta.
  destruct (file_exists fs (parent (tsconfig_path E p))) eqn:Hdir.
  2:{ rewrite (compileSingle_missing E _ _ p fs Hdir). cbn [res trace fs_out].
      intros [= <-] _. by left. }
  pose proof (compileSingle_summary E (webpackConfig E (set_defaults options))
                (set_output (set_defaults options) (getPresenceFolder E p)) p fs Hdir)
    as H.
  cbv zeta in H. intros Hres Hnone. right. split; [done |].
  destruct (res (installPresenceDependencies _ _ _)) as [[] | e'] eqn:Hinst.
  - destruct H as (Hruns & _). rewrite Hruns in Hnone. done.
  - destruct H as (Hr & -> & -> & _). rewrite Hr in Hres. injection Hres as ->.
    destruct (install_Throw E p _ e Hinst) as [Hm He].
    rewrite install_trace, (proj2 (install_run E p _)). cbv zeta.
    unfold tsconfig_path in *. rewrite Hm. by repeat split.
Qed.

Lemma single_throw_before_bundler_witness :
  trace (outcome (compilePresence Demo.failing_install (Single "a") Demo.no_options
                    Demo.with_manifest)) =
  [EvWrite "/repo/websites/A/a/tsconfig.json" tsconfig;
   EvInfo (Installing "a");
   EvExec "npm install --quiet --loglevel=error" "/repo/websites/A/a"] /\
  trace (outcome (compilePresence Demo.failing_install (Single "a") Demo.no_options
                    ∅)) = [].
Proof.
  split.
  - destruct (single_throw_before_bundler Demo.failing_install "a"
                Demo.no_options Demo.with_manifest "npm exited with code 1")
      as [(Hno & _) | (_ & _ & Ht & _)];
      [vm_compute; reflexivity | vm_compute; reflexivity | | exact Ht].
    vm_compute in Hno. discriminate.
  - destruct (single_throw_before_bundler Demo.failing_install "a"
                Demo.no_options ∅ "ENOENT")
      as [(_ & _ & Ht & _) | (Hyes & _)];
      [vm_compute; reflexivity | vm_compute; reflexivity | exact Ht |].
    vm_compute in Hyes. discriminate.
Defined.

(** X3. A single-unit call that returns has run the bundler once, without a
    fatal error, and returns what that run reported, less the diagnostics
    named [ModuleBuildError].  It reports success, as "compiled" or
    "transpiled" by [options.transpileOnly], exactly when the run reported
    no diagnostic at all; so a reported success comes with an empty list. *)
Theorem single_return_reports (E : Env) (p : string) (options : Options)
    (fs : FS) (errs : list WebpackError) :
  let o := outcome (compilePresence E (Single p) options fs) in
  res o = Ok errs ->
  exists r,
    bundler_runs (trace o) = [r] /\
    error r.2 = None /\
    errs = filter (fun e => not_ModuleBuildError e = true) (job_errors r.2) /\
    successes (trace o) =
      (if Nat.eqb (length (job_errors r.2)) 0 then [success_one options p] else []) /\
    (successes (trace o) <> [] -> errs = []).
Proof.
  unfold compilePresence; cbn [outcome]; cbv zeta.
  destruct (file_exists fs (parent (tsconfig_path E p))) eqn:Hdir.
  2:{ by rewrite (compileSingle_missing E _ _ p fs Hdir). }
  pose proof (compileSingle_summary E (webpackConfig E (set_defaults options))
                (set_output (set_defaults options) (getPresenceFolder E p)) p fs Hdir)
    as H.
  cbv zeta in H. rewrite transpileOnly_after_defaults in H.
  set (inst := installPresenceDependencies _ _ _) in *.
  clearbody inst. destruct (res inst).
  2:{ destruct H as (-> & _). done. }
  destruct H as (Hruns & _ & _ & Hend). rewrite Hruns.
  destruct (error _) eqn:Herr; destruct Hend as [-> ->]; [done |].
  intros [= <-]. eexists. split; [done |]. cbn [snd]. rewrite Herr.
  split; [done |]. split; [done |]. unfold success_one.
  split; [by destruct (default false _) |].
  destruct (job_errors _); simpl; done.
Qed.

Lemma single_return_reports_witness :
  successes (trace (outcome (compilePresence Demo.typed_a (Single "a")
                               Demo.no_options Demo.repo))) = [] /\
  successes (trace (outcome (compilePresence Demo.quiet (Single "a")
                               Demo.no_options Demo.repo))) = [CompiledOne "a"].
Proof.
  destruct (single_return_reports Demo.typed_a "a" Demo.no_options Demo.repo [Demo.ts2322])
    as (r1 & Hr1 & _ & _ & Hs1 & _); [vm_compute; reflexivity |].
  destruct (single_return_reports Demo.quiet "a" Demo.no_options Demo.repo [])
    as (r2 & Hr2 & _ & _ & Hs2 & _); [vm_compute; reflexivity |].
  rewrite Hs1, Hs2. clear Hs1 Hs2.
  assert (job_errors r1.2 = [Demo.ts2322; Demo.wrapper]) as ->.
  { assert (Some r1 = bundler_runs (trace (outcome (compilePresence Demo.typed_a
              (Single "a") Demo.no_options Demo.repo))) !! 0) as Hx by by rewrite Hr1.
    vm_compute in Hx. by injection Hx as ->. }
  assert (job_errors r2.2 = []) as ->.
  { assert (Some r2 = bundler_runs (trace (outcome (compilePresence Demo.quiet
              (Single "a") Demo.no_options Demo.repo))) !! 0) as Hx by by rewrite Hr2.
    vm_compute in Hx. by injection Hx as ->. }
  by split.
Defined.

(** ** Further properties of the array branch *)

Section LoopMore.

Variable E : Env.
Variable base : Configuration.
Variable options : Options.

(** The first loop removes nothing and reports no success. *)
Lemma compile_each_readings ps : forall acc fs,
  removals (trace (compile_each E base options ps acc fs)) = [] /\
  successes (trace (compile_each E base options ps acc fs)) = [].
Proof.
  induction ps as [| p ps IH]; intros acc fs; [done |].
  destruct (file_exists fs (parent (resolve E [getPresenceFolder E p; "tsconfig.json"])))
    eqn:Hdir; [| by rewrite (compile_each_missing _ _ _ _ _ _ _ Hdir)].
  rewrite (compile_each_cons _ _ _ _ _ _ _ Hdir). cbv zeta.
  destruct (install_readings E p
              (<[resolve E [getPresenceFolder E p; "tsconfig.json"] := tsconfig]> fs))
    as (_ & Hr & Hs & _).
  set (inst := installPresenceDependencies _ _ _) in *. clearbody inst.
  set (cfg := batchConfig _ _ _ _). clearbody cfg.
  set (w := webpack E cfg (fs_out inst)). clearbody w.
  destruct (res inst); [destruct (error w.1) |]; cbn [trace].
  - change (?a :: ?l ++ [?b]) with ([a] ++ l ++ [b]).
    by rewrite !removals_app, !successes_app, Hr, Hs.
  - change (?a :: ?l ++ ?b :: ?r) with ([a] ++ l ++ [b] ++ r).
    destruct (IH (acc ++ job_errors w.1) w.2) as [IHr IHs].
    by rewrite !removals_app, !successes_app, Hr, Hs, IHr, IHs.
  - change (?a :: ?l) with ([a] ++ l).
    by rewrite !removals_app, !successes_app, Hr, Hs.
Qed.

(** The first loop raises at a write into a directory that does not exist,
    right after an installer run, or right after a fatal bundler run. *)
Lemma compile_each_Throw ps : forall acc fs e,
  res (compile_each E base options ps acc fs) = Throw e ->
  (trace (compile_each E base options ps acc fs) = [] /\ e = "ENOENT") \/
  exists t ev,
    trace (compile_each E base options ps acc fs) = t ++ [ev] /\
    match ev with
    | EvExec _ _ => True
    | EvWebpack _ _ j => error j = Some e \/ e = "ENOENT"
    | _ => False
    end.
Proof.
  induction ps as [| p ps IH]; intros acc fs e; [done |].
  destruct (file_exists fs (parent (resolve E [getPresenceFolder E p; "tsconfig.json"])))
    eqn:Hdir.
  2:{ rewrite (compile_each_missing _ _ _ _ _ _ _ Hdir). cbn [res trace].
      intros [= <-]. by left. }
  rewrite (compile_each_cons _ _ _ _ _ _ _ Hdir). cbv zeta. right.
  set (fs0 := <[resolve E [getPresenceFolder E p; "tsconfig.json"] := tsconfig]> fs) in *.
  destruct (res (installPresenceDependencies E p fs0)) as [[] | e'] eqn:Hinst.
  - set (w := webpack E _ _) in *.
    destruct (error w.1) as [e' |] eqn:Herr; cbn [res trace] in *.
    + injection H as ->. eexists (_ :: _), _. split; [reflexivity | by left].
    + destruct (IH _ _ _ H) as [[Ht ->] | (t & ev & Ht & Hev)]; rewrite Ht.
      * eexists (_ :: _), _. split; [reflexivity | by right].
      * exists (EvWrite (resolve E [getPresenceFolder E p; "tsconfig.json"]) tsconfig
                :: trace (installPresenceDependencies E p fs0) ++
              EvWebpack (batchConfig base options (getPresenceFolder E p)
                           (file_exists (fs_out (installPresenceDependencies E p fs0))
                              (resolve E [getPresenceFolder E p; "iframe.ts"])))
                (fs_out (installPresenceDependencies E p fs0)) w.1 :: t), ev.
        split; [| done]. simpl. rewrite <- app_assoc. done.
  - cbn [res trace] in *. injection H as ->.
    destruct (install_Throw E p fs0 e Hinst) as [Hm _].
    rewrite install_trace, Hm.
    eexists [_; _], _. split; [reflexivity | done].
Qed.

(** The effects of the first loop stay with its units. *)
Lemma compile_each_confined us ps : forall acc fs,
  (forall p, p ∈ ps -> p ∈ us) ->
  Forall (confined E us) (trace (compile_each E base options ps acc fs)).
Proof.
  induction ps as [| p ps IH]; intros acc fs Hus; [constructor |].
  destruct (file_exists fs (parent (resolve E [getPresenceFolder E p; "tsconfig.json"])))
    eqn:Hdir; [| rewrite (compile_each_missing _ _ _ _ _ _ _ Hdir); constructor].
  rewrite (compile_each_cons _ _ _ _ _ _ _ Hdir). cbv zeta.
  set (fs0 := <[resolve E [getPresenceFolder E p; "tsconfig.json"] := tsconfig]> fs).
  assert (p ∈ us) as Hp by (apply Hus; left).
  assert (Forall (confined E us) (trace (installPresenceDependencies E p fs0))) as Hi.
  { rewrite install_trace.
    destruct (file_exists fs0 _); repeat constructor; by exists p. }
  assert (confined E us (EvWrite (resolve E [getPresenceFolder E p; "tsconfig.json"])
                           tsconfig)) as Hw.
  { split; [done |]. by exists p. }
  destruct (res _); [destruct (error _) |]; cbn [trace].
  - constructor; [done |]. apply Forall_app. split; [done |]. by repeat constructor.
  - constructor; [done |]. apply Forall_app. split; [done |].
    constructor; [done |]. apply IH. intros q Hq. apply Hus. by right.
  - by constructor.
Qed.



Hypothesis installer_writes_nothing : forall c d f, (execSync E c d f).2 = f.
Hypothesis bundler_writes_nothing : forall cfg f, (webpack E cfg f).2 = f.

(** With tools that write nothing, the first loop changes the
    [tsconfig.json] of its units and nothing else. *)
Lemma compile_each_frame ps : forall acc fs k,
  k ∉ map (tsconfig_path E) ps ->
  fs_out (compile_each E base options ps acc fs) !! k = fs !! k.
Proof.
  induction ps as [| p ps IH]; intros acc fs k Hk; [done |].
  destruct (file_exists fs (parent (resolve E [getPresenceFolder E p; "tsconfig.json"])))
    eqn:Hdir; [| by rewrite (compile_each_missing _ _ _ _ _ _ _ Hdir)].
  rewrite (compile_each_cons _ _ _ _ _ _ _ Hdir). cbv zeta.
  assert (k <> tsconfig_path E p) as Hne by (intros ->; apply Hk; left).
  assert (k ∉ map (tsconfig_path E) ps) as Hk' by (intros ?; apply Hk; by right).
  fold (tsconfig_path E p).
  assert (fs_out (installPresenceDependencies E p (<[tsconfig_path E p := tsconfig]> fs))
          = <[tsconfig_path E p := tsconfig]> fs) as Hi.
  { rewrite (proj2 (install_run E p _)). cbv zeta.
    destruct (file_exists (<[_ := _]> fs) _); [apply installer_writes_nothing | done]. }
  destruct (res _); [destruct (error _) |]; cbn [fs_out].
  - rewrite bundler_writes_nothing, Hi. by apply lookup_insert_ne.
  - rewrite IH by done. rewrite bundler_writes_nothing, Hi. by apply lookup_insert_ne.
  - rewrite Hi. by apply lookup_insert_ne.
Qed.

End LoopMore.

Lemma compileBatch_Ok_inv (E : Env) base options ps fs errs :
  res (compileBatch E base options ps fs) = Ok errs ->
  exists errs0, res (compile_each E base options ps [] fs) = Ok errs0.
Proof.
  pose proof (compileBatch_shape E base options ps fs) as H. cbv zeta in H.
  destruct (res (compile_each _ _ _ _ _ _)); [by eexists |].
  rewrite H. discriminate.
Qed.



(** X4. A batch that returns leaves no [tsconfig.json] in the directory of
    any of its units, whatever the directories held before the call. *)
Theorem batch_return_leaves_no_tsconfig (E : Env) (ps : list string)
    (options : Options) (fs : FS) (errs : list WebpackError) (p : string) :
  let o := outcome (compilePresence E (Batch ps) options fs) in
  res o = Ok errs ->
  p ∈ ps ->
  fs_out o !! tsconfig_path E p = None.
Proof.
  unfold compilePresence; cbn [outcome]; cbv zeta. intros Hres Hp.
  destruct (compileBatch_Ok_inv _ _ _ _ _ _ Hres) as [errs0 Hloop].
  rewrite (compileBatch_Ok E _ _ _ _ _ Hloop). cbn [fs_out].
  rewrite remove_each_lookup. rewrite decide_True; [done |].
  apply list_elem_of_In, in_map, list_elem_of_In, Hp.
Qed.

Lemma batch_return_leaves_no_tsconfig_witness :
  Demo.with_tsconfig !! "/repo/websites/A/a/tsconfig.json" = Some "{}" /\
  fs_out (outcome (compilePresence Demo.typed_b (Batch ["a"; "b"]) Demo.no_options
                     Demo.with_tsconfig))
    !! "/repo/websites/A/a/tsconfig.json" = None.
Proof.
  split; [reflexivity |].
  apply (batch_return_leaves_no_tsconfig Demo.typed_b ["a"; "b"] Demo.no_options
           Demo.with_tsconfig [Demo.ts2322] "a").
  - vm_compute. reflexivity.
  - left.
Defined.

(** X5. A batch that returns reports success exactly when the list it
    returns is empty, once, with the number of units, as "compiled" or
    "transpiled" by [options.transpileOnly]. *)
Theorem batch_success_iff_empty (E : Env) (ps : list string) (options : Options)
    (fs : FS) (errs : list WebpackError) :
  let o := outcome (compilePresence E (Batch ps) options fs) in
  res o = Ok errs ->
  successes (trace o) =
    match errs with
    | [] => [success_many options (length ps)]
    | _ => []
    end.
Proof.
  unfold compilePresence; cbn [outcome]; cbv zeta. intros Hres.
  destruct (compileBatch_Ok_inv _ _ _ _ _ _ Hres) as [errs0 Hloop].
  pose proof (compileBatch_shape E (webpackConfig E (set_defaults options))
                (set_defaults options) ps fs) as H.
  cbv zeta in H. rewrite Hloop in H. destruct H as (t & Hr & Ht & _ & _ & _ & Hs).
  rewrite Hr in Hres. injection Hres as <-. rewrite Ht.
  change (EvInfo ?m :: ?l ++ t) with ([EvInfo m] ++ l ++ t).
  rewrite !successes_app, (proj2 (compile_each_readings E _ _ ps [] fs)), Hs.
  simpl. unfold success_many. destruct (filter _ errs0); [| done].
  by destruct (default false _).
Qed.

Lemma batch_success_iff_empty_witness :
  successes (trace (outcome (compilePresence Demo.wrapper_only_a (Batch ["a"; "b"])
                               Demo.no_options Demo.repo))) = [CompiledMany 2] /\
  successes (trace (outcome (compilePresence Demo.typed_b (Batch ["a"; "b"])
                               Demo.no_options Demo.repo))) = [].
Proof.
  split.
  - apply (batch_success_iff_empty Demo.wrapper_only_a ["a"; "b"] Demo.no_options Demo.repo []).
    vm_compute. reflexivity.
  - apply (batch_success_iff_empty Demo.typed_b ["a"; "b"] Demo.no_options Demo.repo
             [Demo.ts2322]).
    vm_compute. reflexivity.
Defined.

(** X6. A batch that throws has removed no file and reported no success.
    The error is the fatal error of the bundler run the trace ends with, or
    what the installer run raised that the trace ends with, or the [ENOENT]
    of a write into a directory that does not exist, which comes first of
    all or after the bundler run of the unit before. *)
Theorem batch_throw_cleans_nothing (E : Env) (ps : list string) (options : Options)
    (fs : FS) (e : JsError) :
  let o := outcome (compilePresence E (Batch ps) options fs) in
  res o = Throw e ->
  removals (trace o) = [] /\
  successes (trace o) = [] /\
  exists t ev,
    trace o = t ++ [ev] /\
    match ev with
    | EvExec _ _ => True
    | EvWebpack _ _ j => error j = Some e \/ e = "ENOENT"
    | EvInfo m => m = CompilingMany (length ps) /\ t = [] /\ e = "ENOENT"
    | _ => False
    end.
Proof.
  unfold compilePresence; cbn [outcome]; cbv zeta.
  pose proof (compileBatch_shape E (webpackConfig E (set_defaults options))
                (set_defaults options) ps fs) as H.
  cbv zeta in H.
  destruct (res (compile_each _ _ _ _ _ _)) as [errs | e'] eqn:Hloop.
  - destruct H as (t & -> & _). discriminate.
  - rewrite H. cbn [res trace]. intros [= ->].
    destruct (compile_each_readings E (webpackConfig E (set_defaults options))
                (set_defaults options) ps [] fs) as [Hr Hs].
    change (EvInfo ?m :: ?l) with ([EvInfo m] ++ l).
    rewrite removals_app, successes_app, Hr, Hs.
    split; [done |]. split; [done |].
    destruct (compile_each_Throw E _ _ ps [] fs e Hloop)
      as [[-> ->] | (t & ev & -> & Hev)].
    + by exists [], (EvInfo (CompilingMany (length ps))).
    + exists ([EvInfo (CompilingMany (length ps))] ++ t), ev.
      split; [done |]. by destruct ev.
Qed.

Lemma batch_throw_cleans_nothing_witness :
  removals (trace (outcome (compilePresence Demo.crash_b (Batch ["a"; "b"; "c"])
                              Demo.no_options Demo.repo))) = [] /\
  removals (trace (outcome (compilePresence Demo.quiet (Batch ["a"; "d"])
                              Demo.no_options Demo.repo))) = [].
Proof.
  split.
  - apply (batch_throw_cleans_nothing Demo.crash_b ["a"; "b"; "c"] Demo.no_options
             Demo.repo "bundler crashed").
    vm_compute. reflexivity.
  - apply (batch_throw_cleans_nothing Demo.quiet ["a"; "d"] Demo.no_options
             Demo.repo "ENOENT").
    vm_compute. reflexivity.
Defined.

(** X7. Whatever the call, the compiler itself writes nothing but the fixed
    [tsconfig] text into the [tsconfig.json] of one of its units, removes
    nothing but such a file, and runs no command but
    [npm install --quiet --loglevel=error] in the directory of one of its
    units. *)
Theorem effects_stay_with_units (E : Env) (target : Target) (options : Options)
    (fs : FS) :
  Forall (confined E (units target))
    (trace (outcome (compilePresence E target options fs))).
Proof.
  destruct target as [p | ps]; unfold compilePresence; cbn [outcome units].
  - destruct (file_exists fs (parent (tsconfig_path E p))) eqn:Hdir;
      [| rewrite (compileSingle_missing E _ _ p fs Hdir); constructor].
    rewrite (compileSingle_trace E _ _ p fs Hdir). cbv zeta.
    assert (p ∈ [p]) as Hp by left.
    constructor; [split; [done | by exists p] |].
    apply Forall_app. split.
    + rewrite install_trace.
      destruct (file_exists (<[_ := _]> fs) _); repeat constructor; by exists p.
    + destruct (res _); [| constructor].
      do 2 (constructor; [done |]). apply Forall_app. split.
      * destruct (file_exists (webpack E _ _).2 _); repeat constructor; by exists p.
      * destruct (error _); [constructor |].
        destruct (length _ =? 0)%nat; by repeat constructor.
  - pose proof (compileBatch_shape E (webpackConfig E (set_defaults options))
                  (set_defaults options) ps fs) as H.
    cbv zeta in H.
    pose proof (compile_each_confined E (webpackConfig E (set_defaults options))
                  (set_defaults options) ps ps [] fs (fun _ H => H)) as Hloop.
    destruct (res (compile_each _ _ _ _ _ _)) as [errs | e] eqn:Hres.
    + rewrite (compileBatch_Ok E _ _ _ _ _ Hres). cbn [trace].
      constructor; [done |]. apply Forall_app. split; [done |].
      apply Forall_app. split.
      * eapply Forall_impl; [apply remove_each_trace |].
        intros ev (u & Hu & ->). by exists u.
      * destruct (filter _ errs); by repeat constructor.
    + rewrite H. cbn [trace]. by constructor.
Qed.

(** X8. With an installer and a bundler that write nothing, a call changes
    no path other than the [tsconfig.json] of its units. *)
Theorem other_paths_untouched (E : Env) (target : Target) (options : Options)
    (fs : FS) (k : string) :
  (forall c d f, (execSync E c d f).2 = f) ->
  (forall cfg f, (webpack E cfg f).2 = f) ->
  k ∉ map (tsconfig_path E) (units target) ->
  fs_out (outcome (compilePresence E target options fs)) !! k = fs !! k.
Proof.
  intros Hnpm Hwp Hk.
  destruct target as [p | ps]; unfold compilePresence; cbn [outcome units] in *.
  - assert (k <> tsconfig_path E p) as Hne by (intros ->; apply Hk; left).
    destruct (file_exists fs (parent (tsconfig_path E p))) eqn:Hdir;
      [| by rewrite (compileSingle_missing E _ _ p fs Hdir)].
    rewrite (proj2 (compileSingle_run E _ _ p fs Hdir)). cbv zeta.
    fold (tsconfig_path E p).
    assert (fs_out (installPresenceDependencies E p (<[tsconfig_path E p := tsconfig]> fs))
            = <[tsconfig_path E p := tsconfig]> fs) as Hi.
    { rewrite (proj2 (install_run E p _)). cbv zeta.
      destruct (file_exists (<[_ := _]> fs) _); [apply Hnpm | done]. }
    destruct (res _).
    + rewrite Hwp, Hi, lookup_delete_ne by done. by apply lookup_insert_ne.
    + rewrite Hi. by apply lookup_insert_ne.
  - pose proof (compileBatch_shape E (webpackConfig E (set_defaults options))
                  (set_defaults options) ps fs) as H.
    cbv zeta in H.
    destruct (res (compile_each _ _ _ _ _ _)) as [errs | e] eqn:Hres.
    + rewrite (compileBatch_Ok E _ _ _ _ _ Hres). cbn [fs_out].
      rewrite remove_each_lookup, decide_False by done.
      by apply compile_each_frame.
    + rewrite H. cbn [fs_out]. by apply compile_each_frame.
Qed.

Lemma other_paths_untouched_witness :
  fs_out (outcome (compilePresence Demo.typed_b (Batch ["a"; "b"]) Demo.no_options
                     Demo.with_manifest))
    !! "/repo/websites/A/a/package.json" = Some "{}".
Proof.
  rewrite (other_paths_untouched Demo.typed_b (Batch ["a"; "b"]) Demo.no_options
             Demo.with_manifest "/repo/websites/A/a/package.json").
  - reflexivity.
  - reflexivity.
  - reflexivity.
  - vm_compute. intros H. repeat (apply elem_of_cons in H as [H | H]; [discriminate |]).
    by apply elem_of_nil in H.
Defined.

(** X9. A batch of no units writes nothing, starts nothing, and reports
    the success of zero presences. *)
Theorem empty_batch_reports_success (E : Env) (options : Options) (fs : FS) :
  outcome (compilePresence E (Batch []) options fs) =
  {| res := Ok [];
     fs_out := fs;
     trace := [EvInfo (CompilingMany 0); EvInfo (success_many options 0)] |}.
Proof.
  unfold compilePresence; cbn [outcome]. unfold success_many.
  by destruct options as [out [[] |] em].
Qed.

(** ** What the bundler is configured with *)

(** X10. With [emit] set to [false] the bundler gets no [output] section:
    in every run of a batch, and in the run of a single-unit call unless the
    compiler was constructed with a bundler override of [output]. *)
Theorem emit_disabled_no_output (E : Env) (options : Options) (fs : FS) :
  emit options = Some false ->
  (forall ps,
     Forall (fun r => cfg_output r.1.1 = None)
       (bundler_runs (trace (outcome (compilePresence E (Batch ps) options fs))))) /\
  (forall p,
     ov_output (ctor_webpack E) = None ->
     Forall (fun r => cfg_output r.1.1 = None)
       (bundler_runs (trace (outcome (compilePresence E (Single p) options fs))))).
Proof.
  intros Hemit. split.
  - intros ps. unfold compilePresence; cbn [outcome].
    rewrite compileBatch_runs. apply compile_each_runs.
    intros p fs1 _ cfg. simpl. by rewrite Hemit.
  - intros p Hov. unfold compilePresence; cbn [outcome].
    apply compileSingle_runs. intros fs1 cfg. simpl. by rewrite Hov, Hemit.
Qed.

Lemma emit_disabled_no_output_witness :
  (fun r => cfg_output r.1.1) <$>
    bundler_runs (trace (outcome
      (compilePresence Demo.quiet (Batch ["a"; "b"])
         {| output := Some "/out"; transpileOnly := None; emit := Some false |} Demo.repo))) =
  [None; None].
Proof.
  pose proof (proj1 (emit_disabled_no_output Demo.quiet
                       {| output := Some "/out"; transpileOnly := None;
                          emit := Some false |} Demo.repo eq_refl) ["a"; "b"]) as H.
  assert (length (bundler_runs (trace (outcome
            (compilePresence Demo.quiet (Batch ["a"; "b"])
               {| output := Some "/out"; transpileOnly := None;
                  emit := Some false |} Demo.repo)))) = 2) as Hlen
    by (vm_compute; reflexivity).
  destruct (bundler_runs _) as [| r1 [| r2 [| r3 l]]]; try discriminate.
  apply Forall_cons in H as [H1 H]. apply Forall_cons in H as [H2 _].
  simpl. by rewrite H1, H2.
Defined.

(** X11. A compiler constructed with a bundler override of [output] hands
    that override to the bundler in a single-unit call, whatever
    [options.output] and [options.emit] say. *)
Theorem constructor_output_override (H : Host) (rootPath : string)
    (c : option string) (ov : Overrides) (v : option Output) (p : string)
    (options : Options) (fs : FS) :
  ov_output ov = Some v ->
  Forall (fun r => cfg_output r.1.1 = v)
    (bundler_runs (trace (outcome
       (compilePresence
          (new H rootPath (Some {| opt_cwd := c; opt_webpack := Some ov |}))
          (Single p) options fs)))).
Proof.
  intros Hov. unfold compilePresence; cbn [outcome].
  apply compileSingle_runs. intros fs1 cfg. simpl. by rewrite Hov.
Qed.

Lemma constructor_output_override_witness :
  (fun r => path <$> cfg_output r.1.1) <$>
    bundler_runs (trace (outcome
      (compilePresence (new DemoHost.host "/repo" DemoHost.elsewhere)
         (Single "a") Demo.to_out DemoHost.elsewhere_repo))) =
  [Some (Some "/dist")].
Proof.
  pose proof (constructor_output_override DemoHost.host "/repo" (Some "/elsewhere")
                DemoHost.to_dist _ "a" Demo.to_out DemoHost.elsewhere_repo eq_refl) as H.
  fold DemoHost.elsewhere in H.
  assert (length (bundler_runs (trace (outcome
            (compilePresence (new DemoHost.host "/repo" DemoHost.elsewhere)
               (Single "a") Demo.to_out DemoHost.elsewhere_repo)))) = 1) as Hlen
    by (vm_compute; reflexivity).
  destruct (bundler_runs _) as [| r1 [| r2 l]]; try discriminate.
  apply Forall_cons in H as [H1 _]. simpl. by rewrite H1.
Defined.

(** X12. A compiler constructed without a bundler override starts every
    bundler run in production mode, with inline source maps, resolving
    [.ts], and with one rule that sends [.ts] files outside [node_modules]
    to [ts-loader] with [transpileOnly] as the options have it ([false] by
    default). *)
Theorem default_configuration_reaches_bundler (H : Host) (rootPath : string)
    (copts : option ConstructorOptions) (target : Target) (options : Options)
    (fs : FS) :
  copts ≫= opt_webpack = None ->
  Forall (fun r =>
            cfg_mode r.1.1 = Some "production" /\
            cfg_devtool r.1.1 = Some "inline-source-map" /\
            cfg_resolve r.1.1 = Some [".ts"] /\
            cfg_module r.1.1 =
              Some [ {| test := "\.ts$"; loader := "ts-loader";
                        exclude := "node_modules";
                        loader_transpileOnly :=
                          default false (transpileOnly options) |} ])
    (bundler_runs (trace (outcome
       (compilePresence (new H rootPath copts) target options fs)))).
Proof.
  intros Hnone.
  destruct target as [p | ps]; unfold compilePresence; cbn [outcome].
  - apply compileSingle_runs. intros fs1 cfg. simpl. by rewrite Hnone.
  - rewrite compileBatch_runs. apply compile_each_runs.
    intros p fs1 _ cfg. simpl. by rewrite Hnone.
Qed.

Lemma default_configuration_reaches_bundler_witness :
  (fun r => cfg_mode r.1.1) <$>
    bundler_runs (trace (outcome
      (compilePresence (new DemoHost.host "/repo" None) (Batch ["a"; "b"])
         Demo.no_options Demo.repo))) =
  [Some "production"; Some "production"].
Proof.
  pose proof (default_configuration_reaches_bundler DemoHost.host "/repo" None
                (Batch ["a"; "b"]) Demo.no_options Demo.repo eq_refl) as H.
  assert (length (bundler_runs (trace (outcome
            (compilePresence (new DemoHost.host "/repo" None) (Batch ["a"; "b"])
               Demo.no_options Demo.repo)))) = 2) as Hlen
    by (vm_compute; reflexivity).
  destruct (bundler_runs _) as [| r1 [| r2 [| r3 l]]]; try discriminate.
  apply Forall_cons in H as [(H1 & _) H]. apply Forall_cons in H as [(H2 & _) _].
  simpl. by rewrite H1, H2.
Defined.

(** X13. Every bundler run of a compiler works in the directory
    [websites/<letter>/<presence>] of one of the units, under the [cwd] the
    constructor was given, or under the root of the repository when it was
    given none. *)
Theorem units_are_built_under_cwd (H : Host) (rootPath : string)
    (copts : option ConstructorOptions) (target : Target) (options : Options)
    (fs : FS) :
  Forall (fun r =>
            exists u, u ∈ units target /\
              cfg_context r.1.1 =
                Some (host_resolve H [default rootPath (copts ≫= opt_cwd); "websites";
                                      host_getFolderLetter H u; u]))
    (bundler_runs (trace (outcome
       (compilePresence (new H rootPath copts) target options fs)))).
Proof.
  destruct target as [p | ps]; unfold compilePresence; cbn [outcome units].
  - apply compileSingle_runs. intros fs1 cfg. exists p. split; [left | done].
  - rewrite compileBatch_runs. apply compile_each_runs.
    intros p fs1 Hp cfg. by exists p.
Qed.

(** ** The options object across calls *)

(** X14. An options object that went through a single-unit call for [p]
    without an [output] carries the directory of [p] from then on: a later
    single-unit call that is handed the same object, for any presence [q],
    configures the bundler to write into the directory of [p]. *)
Theorem reused_options_keep_first_output (E : Env) (p q : string)
    (options : Options) (fs fs' : FS) :
  ov_output (ctor_webpack E) = None ->
  default true (emit options) = true ->
  truthy_string (output options) = false ->
  let reused := options_after (compilePresence E (Single p) options fs) in
  Forall (output_in (getPresenceFolder E p))
    (bundler_runs (trace (outcome (compilePresence E (Single q) reused fs')))).
Proof.
  intros Hov Hemit Hout. cbv zeta.
  unfold compilePresence; cbn [outcome options_after].
  apply compileSingle_runs. intros fs1 cfg.
  unfold output_in. simpl. rewrite Hov. unfold set_output. simpl.
  rewrite Hout. simpl. by rewrite Hemit.
Qed.

Lemma reused_options_keep_first_output_witness :
  Forall (output_in "/repo/websites/A/a")
    (bundler_runs (trace (outcome
       (compilePresence Demo.quiet (Single "b")
          (options_after (compilePresence Demo.quiet (Single "a") Demo.no_options Demo.repo))
          Demo.repo)))).
Proof.
  apply (reused_options_keep_first_output Demo.quiet "a" "b" Demo.no_options Demo.repo Demo.repo);
    reflexivity.
Defined.

(** X15. The mutation of the options object is idempotent: a second call
    for the same target, handed the object the first call left, leaves it
    as it found it. *)
Theorem options_mutation_idempotent (E : Env) (target : Target) (options : Options)
    (fs fs' : FS) :
  let once := options_after (compilePresence E target options fs) in
  options_after (compilePresence E target once fs') = once.
Proof.
  destruct target as [p | ps]; destruct options as [out tr em]; simpl.
  - unfold set_output; simpl.
    destruct (truthy_string out) eqn:Hout; simpl.
    + by rewrite Hout.
    + by destruct (String.eqb (getPresenceFolder E p) "").
  - done.
Qed.

(** X16. When the directory of the unit exists and holds no [package.json],
    a single-unit call runs no command and starts the bundler exactly once,
    on the caller's filesystem with the [tsconfig.json] it has just
    written. *)
Theorem single_without_manifest (E : Env) (p : string) (options : Options) (fs : FS) :
  let f := tsconfig_path E p in
  let o := outcome (compilePresence E (Single p) options fs) in
  file_exists fs (parent f) = true ->
  file_exists (<[f := tsconfig]> fs)
    (resolve E [getPresenceFolder E p; "package.json"]) = false ->
  execs (trace o) = [] /\
  exists cfg job,
    bundler_runs (trace o) = [(cfg, <[f := tsconfig]> fs, job)] /\
    (<[f := tsconfig]> fs) !! f = Some tsconfig.
Proof.
  cbv zeta. intros Hdir Hm. unfold compilePresence; cbn [outcome].
  pose proof (compileSingle_summary E (webpackConfig E (set_defaults options))
                (set_output (set_defaults options) (getPresenceFolder E p)) p fs Hdir)
    as H.
  pose proof (compileSingle_trace E (webpackConfig E (set_defaults options))
                (set_output (set_defaults options) (getPresenceFolder E p)) p fs Hdir)
    as Ht.
  cbv zeta in H, Ht.
  unfold tsconfig_path in *. rewrite (install_absent E p _ Hm) in H, Ht.
  cbn [res fs_out trace] in H, Ht. destruct H as (Hruns & _).
  split.
  - rewrite Ht. unfold execs.
    destruct (file_exists (webpack E _ _).2 _), (error _); simpl; try done;
      destruct (length (job_errors _) =? 0)%nat; try done; by destruct (negb _).
  - do 2 eexists. split; [exact Hruns | apply lookup_insert_eq].
Qed.

Lemma single_without_manifest_witness :
  execs (trace (outcome (compilePresence Demo.failing_install (Single "a")
                           Demo.no_options Demo.repo))) = [] /\
  (fun r => r.1.2 !! "/repo/websites/A/a/tsconfig.json") <$>
    bundler_runs (trace (outcome (compilePresence Demo.failing_install (Single "a")
                                    Demo.no_options Demo.repo))) =
  [Some tsconfig].
Proof.
  destruct (single_without_manifest Demo.failing_install "a" Demo.no_options Demo.repo)
    as (Hx & cfg & job & Hruns & Hts); [reflexivity | reflexivity |].
  split; [exact Hx |]. rewrite Hruns. vm_compute. reflexivity.
Defined.

End PresenceCompiler.
